(** * FamPoints bot: a shallow embedding of [src/index.js]

    The bot keeps five SQLite tables and reacts to Telegram updates through
    three command handlers ([/me], [/leaderboard], [/myinvite]) and one
    message handler.  The tables are modelled as finite maps indexed by their
    primary key, the handlers as functions from a database to a database.

    Conventions.
    - A JavaScript string is the list of its UTF-16 code units.
    - A column of type INTEGER is a [Z]; every counter moves by one per
      statement, so the 64-bit range of SQLite is never approached and is not
      modelled.
    - A Telegram user always carries an [id]; the only falsy one is 0, so
      the tests [!u?.id] of the code read "there is no user, or its id is
      0".
    - [now()] reads the wall clock each time it is called.  A run of the
      message handler receives [now : nat -> Z], the value of the n-th read
      made during that run.
    - The external call [createChatInviteLink] is an oracle: the handler
      receives the link the platform would hand out, or nothing when the call
      fails.
    - A SELECT without ORDER BY returns its rows in an order SQLite does not
      fix; here it is the order in which the map enumerates them.  No
      property below depends on it. *)

From stdpp Require Import gmap list fin_maps sorting.
From Stdlib Require Import ZArith Lia DecimalPos DecimalZ.

Local Open Scope Z_scope.

(** ** JavaScript strings *)

Abbreviation jsstring := (list N).

(** WhiteSpace and LineTerminator code points of ECMAScript, the ones
    [String.prototype.trim] strips. *)
Definition is_js_space (c : N) : bool :=
  (N.eqb c 0x9 || N.eqb c 0xA || N.eqb c 0xB || N.eqb c 0xC || N.eqb c 0xD
   || N.eqb c 0x20 || N.eqb c 0xA0 || N.eqb c 0x1680
   || (N.leb 0x2000 c && N.leb c 0x200A)
   || N.eqb c 0x2028 || N.eqb c 0x2029 || N.eqb c 0x202F || N.eqb c 0x205F
   || N.eqb c 0x3000 || N.eqb c 0xFEFF)%bool.

Fixpoint trimStart (s : jsstring) : jsstring :=
  match s with
  | c :: s' => if is_js_space c then trimStart s' else s
  | [] => []
  end.

Definition trimEnd (s : jsstring) : jsstring := rev (trimStart (rev s)).

Definition trim (s : jsstring) : jsstring := trimEnd (trimStart s).

Fixpoint startsWith (s p : jsstring) : bool :=
  match p, s with
  | [], _ => true
  | a :: p', b :: s' => N.eqb a b && startsWith s' p'
  | _ :: _, [] => false
  end.

(** The two literals of the handler: ["+"] and ["/"]. *)
Definition plus_sign : jsstring := [0x2B%N].
Definition slash : jsstring := [0x2F%N].

(** Truthiness of a string value that may be [undefined]. *)
Definition truthy_str (s : option jsstring) : bool :=
  match s with
  | Some (_ :: _) => true
  | _ => false
  end.

(** [s || null] *)
Definition or_null (s : option jsstring) : option jsstring :=
  if truthy_str s then s else None.

(** [s], or the empty string when [s] is undefined: the [||] of the code
    with an empty string on its right. *)
Definition or_empty (s : option jsstring) : jsstring :=
  match s with
  | Some s' => s'
  | None => []
  end.

(** ** Telegram objects *)

Module User.
Record t := mk {
  id : Z;
  username : option jsstring;
  first_name : option jsstring
}.
End User.

(** [ctx.message], restricted to the fields the handlers read.
    [reply_to_from] is [ctx.message.reply_to_message?.from] and
    [invite_link] is [ctx.message.invite_link?.invite_link]. *)
Record Message := {
  text : option jsstring;
  reply_to_from : option User.t;
  new_chat_members : list User.t;
  invite_link : option jsstring
}.

Record Ctx := {
  chat_id : Z;
  from : option User.t;
  message : Message
}.

(** ** Config knobs *)

Definition KARMA_COOLDOWN_SECONDS : Z := 30.
Definition INVITE_CONFIRM_AFTER_SECONDS : Z := 24 * 3600.
Definition INVITE_CONFIRM_MIN_MESSAGES : Z := 3.

(** ** DB schema *)

Record UserRow := {
  username : option jsstring;
  first_name : option jsstring
}.

Record StatsRow := {
  messages : Z;
  karma : Z;
  karma_given : Z;
  invites_pending : Z;
  invites_confirmed : Z
}.

Record JoinRow := {
  inviter_id : option Z;
  joined_at : Z;
  confirmed : Z
}.

(** Every table has the primary key [(chat_id, <user id>)]. *)
Record DB := {
  users : gmap (Z * Z) UserRow;
  stats : gmap (Z * Z) StatsRow;
  karma_cooldowns : gmap (Z * Z) Z;
  invite_links : gmap (Z * Z) jsstring;
  invite_joins : gmap (Z * Z) JoinRow
}.

Definition empty_db : DB :=
  {| users := ∅; stats := ∅; karma_cooldowns := ∅;
     invite_links := ∅; invite_joins := ∅ |}.

Definition set_users (f : gmap (Z * Z) UserRow → gmap (Z * Z) UserRow) (db : DB) : DB :=
  {| users := f (users db); stats := stats db;
     karma_cooldowns := karma_cooldowns db;
     invite_links := invite_links db; invite_joins := invite_joins db |}.

Definition set_stats (f : gmap (Z * Z) StatsRow → gmap (Z * Z) StatsRow) (db : DB) : DB :=
  {| users := users db; stats := f (stats db);
     karma_cooldowns := karma_cooldowns db;
     invite_links := invite_links db; invite_joins := invite_joins db |}.

Definition set_karma_cooldowns (f : gmap (Z * Z) Z → gmap (Z * Z) Z) (db : DB) : DB :=
  {| users := users db; stats := stats db;
     karma_cooldowns := f (karma_cooldowns db);
     invite_links := invite_links db; invite_joins := invite_joins db |}.

Definition set_invite_links (f : gmap (Z * Z) jsstring → gmap (Z * Z) jsstring) (db : DB) : DB :=
  {| users := users db; stats := stats db;
     karma_cooldowns := karma_cooldowns db;
     invite_links := f (invite_links db); invite_joins := invite_joins db |}.

Definition set_invite_joins (f : gmap (Z * Z) JoinRow → gmap (Z * Z) JoinRow) (db : DB) : DB :=
  {| users := users db; stats := stats db;
     karma_cooldowns := karma_cooldowns db;
     invite_links := invite_links db; invite_joins := f (invite_joins db) |}.

(** ** SQL statements *)

Section Statements.
Context {V : Type}.

(** INSERT ... ON CONFLICT(key) DO NOTHING *)
Definition insert_or_ignore (k : Z * Z) (v : V) (m : gmap (Z * Z) V) : gmap (Z * Z) V :=
  match m !! k with
  | Some _ => m
  | None => <[k := v]> m
  end.

(** A plain INSERT: a row with the same primary key makes the statement
    throw, and nothing is written. *)
Definition insert_strict (k : Z * Z) (v : V) (m : gmap (Z * Z) V) : option (gmap (Z * Z) V) :=
  match m !! k with
  | Some _ => None
  | None => Some (<[k := v]> m)
  end.
End Statements.

(** The row [INSERT INTO stats (chat_id, user_id)] creates: every counter
    takes its DEFAULT 0. *)
Definition default_stats : StatsRow :=
  {| messages := 0; karma := 0; karma_given := 0;
     invites_pending := 0; invites_confirmed := 0 |}.

Definition inc_messages (r : StatsRow) : StatsRow :=
  {| messages := messages r + 1; karma := karma r;
     karma_given := karma_given r;
     invites_pending := invites_pending r;
     invites_confirmed := invites_confirmed r |}.

Definition inc_karma (r : StatsRow) : StatsRow :=
  {| messages := messages r; karma := karma r + 1;
     karma_given := karma_given r;
     invites_pending := invites_pending r;
     invites_confirmed := invites_confirmed r |}.

Definition inc_karma_given (r : StatsRow) : StatsRow :=
  {| messages := messages r; karma := karma r;
     karma_given := karma_given r + 1;
     invites_pending := invites_pending r;
     invites_confirmed := invites_confirmed r |}.

Definition inc_invites_pending (r : StatsRow) : StatsRow :=
  {| messages := messages r; karma := karma r;
     karma_given := karma_given r;
     invites_pending := invites_pending r + 1;
     invites_confirmed := invites_confirmed r |}.

(** SET invites_pending = CASE WHEN invites_pending > 0
                          THEN invites_pending - 1 ELSE 0 END,
        invites_confirmed = invites_confirmed + 1 *)
Definition shift_invite (r : StatsRow) : StatsRow :=
  {| messages := messages r; karma := karma r;
     karma_given := karma_given r;
     invites_pending :=
       if 0 <? invites_pending r then invites_pending r - 1 else 0;
     invites_confirmed := invites_confirmed r + 1 |}.

(** SET confirmed=1 *)
Definition set_confirmed (r : JoinRow) : JoinRow :=
  {| inviter_id := inviter_id r; joined_at := joined_at r; confirmed := 1 |}.

(** ** upsertUser *)

Definition upsertUser (chatId : Z) (u : option User.t) (db : DB) : DB :=
  match u with
  | None => db
  | Some u =>
      if User.id u =? 0 then db
      else
        let db1 :=
          set_users
            (insert (chatId, User.id u)
               {| username := or_null (User.username u);
                  first_name := or_null (User.first_name u) |}) db in
        set_stats (insert_or_ignore (chatId, User.id u) default_stats) db1
  end.

(** ** Commands *)

(** SELECT ... FROM stats WHERE chat_id=? AND user_id=?, with the zero row
    the [/me] handler falls back to when there is none. *)
Definition stats_of (db : DB) (k : Z * Z) : StatsRow :=
  default default_stats (stats db !! k).

(** [/me]: the reply shows the sender's counters; without a sender reading
    [u.id] throws. *)
Definition me (ctx : Ctx) (db : DB) : DB * option StatsRow :=
  let db1 := upsertUser (chat_id ctx) (from ctx) db in
  match from ctx with
  | None => (db1, None)
  | Some u => (db1, Some (stats_of db1 (chat_id ctx, User.id u)))
  end.

(** [/leaderboard] only reads. *)
Definition leaderboard (ctx : Ctx) (db : DB) : DB := db.

(** Outcome of [/myinvite]: the link sent back and whether
    [createChatInviteLink] was called, or a thrown exception. *)
Inductive InviteReply :=
  | Replied (link : jsstring) (api_called : bool)
  | Threw (api_called : bool).

Definition myinvite (ctx : Ctx) (created : option jsstring) (db : DB)
  : DB * InviteReply :=
  let chatId := chat_id ctx in
  let db1 := upsertUser chatId (from ctx) db in
  match from ctx with
  | None => (db1, Threw false)
  | Some u =>
      let existing := invite_links db1 !! (chatId, User.id u) in
      if truthy_str existing then (db1, Replied (or_empty existing) false)
      else
        match created with
        | None => (db1, Threw true)
        | Some link =>
            match insert_strict (chatId, User.id u) link (invite_links db1) with
            | None => (db1, Threw true)
            | Some links => (set_invite_links (λ _, links) db1, Replied link true)
            end
        end
  end.

(** ** Message handler *)

(** SELECT inviter_id FROM invite_links WHERE chat_id=? AND invite_link=?
    followed by [.get]: the first matching row. *)
Definition select_inviter (chatId : Z) (link : jsstring)
    (m : gmap (Z * Z) jsstring) : option Z :=
  head (omap (λ '((c, i), l),
                if (c =? chatId) && bool_decide (l = link)
                then Some i else None)
             (map_to_list m)).

(** One iteration of the loop over [new_chat_members]; [t] is the value of
    the iteration's [now()]. *)
Definition track_join (chatId : Z) (inviteLink : option jsstring) (t : Z)
    (joinUser : User.t) (db : DB) : DB :=
  let db1 := upsertUser chatId (Some joinUser) db in
  let inviterId :=
    if truthy_str inviteLink then
      match select_inviter chatId (or_empty inviteLink) (invite_links db1) with
      | Some i => if i =? 0 then None else Some i
      | None => None
      end
    else None in
  let db2 :=
    set_invite_joins
      (insert_or_ignore (chatId, User.id joinUser)
         {| inviter_id := inviterId; joined_at := t; confirmed := 0 |}) db1 in
  match inviterId with
  | Some i =>
      let db3 := set_stats (insert_or_ignore (chatId, i) default_stats) db2 in
      set_stats (alter inc_invites_pending (chatId, i)) db3
  | None => db2
  end.

Fixpoint track_joins (chatId : Z) (inviteLink : option jsstring)
    (now : nat → Z) (n : nat) (joined : list User.t) (db : DB) : DB :=
  match joined with
  | [] => db
  | joinUser :: rest =>
      track_joins chatId inviteLink now (S n) rest
        (track_join chatId inviteLink (now n) joinUser db)
  end.

(** Count messages (ignore commands). *)
Definition counts_message (m : Message) : bool :=
  truthy_str (text m) && negb (startsWith (trim (or_empty (text m))) slash).

Definition count_message (chatId : Z) (u : User.t) (m : Message) (db : DB) : DB :=
  if counts_message m
  then set_stats (alter inc_messages (chatId, User.id u)) db
  else db.

(** The condition guarding the karma block. *)
Definition karma_trigger (m : Message) : bool :=
  truthy_str (text m)
  && bool_decide (trim (or_empty (text m)) = plus_sign)
  && bool_decide (is_Some (reply_to_from m)).

(** How a block of the handler ends: by [return], or by falling through to
    the statements after it, having read the clock [ticks] times. *)
Inductive Flow :=
  | Returned (db : DB)
  | Fell (ticks : nat) (db : DB).

Definition flow_db (fl : Flow) : DB :=
  match fl with
  | Returned db => db
  | Fell _ db => db
  end.

(** The body of the karma block, entered with [target] the author of the
    replied-to message. *)
Definition grant_karma (chatId : Z) (u target : User.t) (now : nat → Z)
    (db : DB) : Flow :=
  if User.id target =? 0 then Returned db
  else if User.id target =? User.id u then Returned db
  else
    let cd := karma_cooldowns db !! (chatId, User.id u) in
    let t := now 0%nat in
    let limited :=
      match cd with
      | Some last_at => t - last_at <? KARMA_COOLDOWN_SECONDS
      | None => false
      end in
    if limited then Returned db
    else
      let db1 := set_karma_cooldowns (insert (chatId, User.id u) t) db in
      let db2 := upsertUser chatId (Some target) db1 in
      let db3 := set_stats (alter inc_karma (chatId, User.id target)) db2 in
      Fell 1 (set_stats (alter inc_karma_given (chatId, User.id u)) db3).

Definition karma_block (chatId : Z) (u : User.t) (m : Message)
    (now : nat → Z) (db : DB) : Flow :=
  if karma_trigger m then
    match reply_to_from m with
    | Some target => grant_karma chatId u target now db
    | None => Fell 0 db
    end
  else Fell 0 db.

(** A row of the candidates query. *)
Record Candidate := {
  c_joined_user_id : Z;
  c_inviter_id : Z;
  c_joined_at : Z
}.

(** SELECT joined_user_id, inviter_id, joined_at FROM invite_joins
    WHERE chat_id=? AND confirmed=0 AND inviter_id IS NOT NULL LIMIT 5 *)
Definition select_candidates (chatId : Z) (m : gmap (Z * Z) JoinRow)
  : list Candidate :=
  take 5
    (omap (λ '((c, j), r),
             if (c =? chatId) && (confirmed r =? 0) then
               match inviter_id r with
               | Some i =>
                   Some {| c_joined_user_id := j; c_inviter_id := i;
                           c_joined_at := joined_at r |}
               | None => None
               end
             else None)
          (map_to_list m)).

(** One iteration of the loop over the candidates; [t] is the value of the
    iteration's [now()]. *)
Definition confirm_candidate (chatId : Z) (t : Z) (c : Candidate) (db : DB) : DB :=
  if t - c_joined_at c <? INVITE_CONFIRM_AFTER_SECONDS then db
  else
    let msgCount :=
      match stats db !! (chatId, c_joined_user_id c) with
      | Some s => messages s
      | None => 0
      end in
    if msgCount <? INVITE_CONFIRM_MIN_MESSAGES then db
    else
      let db1 :=
        set_invite_joins (alter set_confirmed (chatId, c_joined_user_id c)) db in
      set_stats (alter shift_invite (chatId, c_inviter_id c)) db1.

Fixpoint confirm_loop (chatId : Z) (now : nat → Z) (n : nat)
    (cs : list Candidate) (db : DB) : DB :=
  match cs with
  | [] => db
  | c :: rest =>
      confirm_loop chatId now (S n) rest
        (confirm_candidate chatId (now n) c db)
  end.

(** Lightweight confirmation checks (do a few per message); [n] clock reads
    have been made before the loop starts. *)
Definition confirmation_sweep (chatId : Z) (now : nat → Z) (n : nat) (db : DB) : DB :=
  confirm_loop chatId now n (select_candidates chatId (invite_joins db)) db.

Definition on_message (now : nat → Z) (ctx : Ctx) (db : DB) : DB :=
  let chatId := chat_id ctx in
  let m := message ctx in
  match new_chat_members m with
  | _ :: _ =>
      track_joins chatId (invite_link m) now 0 (new_chat_members m) db
  | [] =>
      match from ctx with
      | None => db
      | Some u =>
          if User.id u =? 0 then db
          else
            let db1 := upsertUser chatId (Some u) db in
            let db2 := count_message chatId u m db1 in
            match karma_block chatId u m now db2 with
            | Returned db3 => db3
            | Fell n db3 => confirmation_sweep chatId now n db3
            end
      end
  end.

(** ** Updates and runs *)

(** grammy routes an update to the first handler that accepts it: a command
    to its [bot.command] handler, any other message to [bot.on("message")]. *)
Inductive Update :=
  | CmdMe (ctx : Ctx)
  | CmdLeaderboard (ctx : Ctx)
  | CmdMyinvite (ctx : Ctx) (created : option jsstring)
  | Msg (now : nat → Z) (ctx : Ctx).

Definition handle (up : Update) (db : DB) : DB :=
  match up with
  | CmdMe ctx => fst (me ctx db)
  | CmdLeaderboard ctx => leaderboard ctx db
  | CmdMyinvite ctx created => fst (myinvite ctx created db)
  | Msg now ctx => on_message now ctx db
  end.

Definition run (ups : list Update) (db : DB) : DB :=
  fold_left (λ d up, handle up d) ups db.

(** ** Reading the handlers

    The definitions below are not part of the bot: they name what the
    properties talk about. *)

(** [stats_rel P db db'] holds when every row of [db] is still a row of
    [db'] and the counters of each key, read with [stats_of], are related
    by [P]. *)
Definition stats_rel (P : StatsRow → StatsRow → Prop) (db db' : DB) : Prop :=
  ∀ k, P (stats_of db k) (stats_of db' k)
       ∧ (is_Some (stats db !! k) → is_Some (stats db' !! k)).

Definition karma_same (r r' : StatsRow) : Prop :=
  karma r = karma r' ∧ karma_given r = karma_given r'.

Definition messages_same (r r' : StatsRow) : Prop := messages r = messages r'.

Definition invites_ok (r r' : StatsRow) : Prop :=
  invites_pending r + invites_confirmed r
    ≤ invites_pending r' + invites_confirmed r'
  ∧ (0 ≤ invites_pending r → 0 ≤ invites_pending r').

(** The cooldown test of the karma block:
    [cd && (t - cd.last_at) < KARMA_COOLDOWN_SECONDS]. *)
Definition limited (chatId : Z) (u : User.t) (t : Z) (db : DB) : bool :=
  match karma_cooldowns db !! (chatId, User.id u) with
  | Some last_at => t - last_at <? KARMA_COOLDOWN_SECONDS
  | None => false
  end.

(** Whether a run of the message handler reaches the three writes of the
    karma block: every test on the way to them, in the order of the code. *)
Definition grants (now : nat → Z) (ctx : Ctx) (db : DB) : bool :=
  match new_chat_members (message ctx), from ctx, reply_to_from (message ctx) with
  | [], Some u, Some target =>
      negb (User.id u =? 0) && karma_trigger (message ctx)
      && negb (User.id target =? 0) && negb (User.id target =? User.id u)
      && negb (limited (chat_id ctx) u (now 0%nat) db)
  | _, _, _ => false
  end.

(** The state the karma block leaves when it grants. *)
Definition granted (chatId : Z) (u target : User.t) (t : Z) (db : DB) : DB :=
  set_stats (alter inc_karma_given (chatId, User.id u))
    (set_stats (alter inc_karma (chatId, User.id target))
       (upsertUser chatId (Some target)
          (set_karma_cooldowns (insert (chatId, User.id u) t) db))).

(** Whether the update makes the handler run the UPDATE of the message
    counter on the row [(C, U)]. *)
Definition counted (C U : Z) (up : Update) : bool :=
  match up with
  | Msg _ ctx =>
      match new_chat_members (message ctx), from ctx with
      | [], Some u =>
          negb (User.id u =? 0) && counts_message (message ctx)
          && (chat_id ctx =? C) && (User.id u =? U)
      | _, _ => false
      end
  | _ => false
  end.

(** The number of updates of a run that satisfy [ok]. *)
Fixpoint count_updates (ok : Update → bool) (ups : list Update) : Z :=
  match ups with
  | [] => 0
  | up :: rest => (if ok up then 1 else 0) + count_updates ok rest
  end.

(** *** The words of the specification *)

(** A message event of user [U] in chat [C]: an update that reaches the
    message handler with no new members and with an actor, a sender whose
    id is truthy, who is [U]. *)
Definition message_event (C U : Z) (up : Update) : option Message :=
  match up with
  | Msg _ ctx =>
      match new_chat_members (message ctx), from ctx with
      | [], Some u =>
          if negb (User.id u =? 0) && (chat_id ctx =? C) && (User.id u =? U)
          then Some (message ctx) else None
      | _, _ => None
      end
  | _ => None
  end.

(** The text is not empty and does not start with ["/"]. *)
Definition plain_text (m : Message) : bool :=
  match text m with
  | Some (c :: s) => negb (startsWith (c :: s) slash)
  | _ => false
  end.

(** The text is not empty and, white space around it stripped, does not
    start with ["/"]. *)
Definition plain_text_trimmed (m : Message) : bool :=
  match text m with
  | Some (c :: s) => negb (startsWith (trim (c :: s)) slash)
  | _ => false
  end.

Definition is_message_with (ok : Message → bool) (C U : Z) (up : Update) : bool :=
  match message_event C U up with
  | Some m => ok m
  | None => false
  end.

(** ** Sample updates *)

(** User 2 replies ["+"] to a message of user 3, in chat 1. *)
Definition plus_reply : Ctx :=
  {| chat_id := 1;
     from := Some (User.mk 2 None None);
     message := {| text := Some plus_sign;
                   reply_to_from := Some (User.mk 3 None None);
                   new_chat_members := []; invite_link := None |} |}.

(** User 2 replies ["+"] to a message of their own. *)
Definition self_reply : Ctx :=
  {| chat_id := 1;
     from := Some (User.mk 2 None None);
     message := {| text := Some plus_sign;
                   reply_to_from := Some (User.mk 2 None None);
                   new_chat_members := []; invite_link := None |} |}.

(** User 2 replies [" +"], a space and the plus sign, to user 3. *)
Definition spaced_plus_reply : Ctx :=
  {| chat_id := 1;
     from := Some (User.mk 2 None None);
     message := {| text := Some [0x20%N; 0x2B%N];
                   reply_to_from := Some (User.mk 3 None None);
                   new_chat_members := []; invite_link := None |} |}.

Definition busy_stats : StatsRow :=
  {| messages := 7; karma := 4; karma_given := 2;
     invites_pending := 1; invites_confirmed := 3 |}.

(** A text of user [U] in chat 1, with the clock at [t] all along the run
    of the handler. *)
Definition text_at (t : Z) (U : Z) (s : jsstring) : Update :=
  Msg (λ _, t)
      {| chat_id := 1;
         from := Some (User.mk U None None);
         message := {| text := Some s; reply_to_from := None;
                       new_chat_members := []; invite_link := None |} |}.

(** The same as a reply to a message of user [target]. *)
Definition reply_at (t : Z) (U : Z) (s : jsstring) (target : Z) : Update :=
  Msg (λ _, t)
      {| chat_id := 1;
         from := Some (User.mk U None None);
         message := {| text := Some s;
                       reply_to_from := Some (User.mk target None None);
                       new_chat_members := []; invite_link := None |} |}.

Definition hi : jsstring := [0x68%N; 0x69%N].

(** ["hi"] from user 2, ["/x"] from user 2, ["yo"] from user 3, [" hi"]
    from user 2. *)
Definition sample_run : list Update :=
  [text_at 1000 2 hi;
   text_at 1001 2 [0x2F%N; 0x78%N];
   text_at 1002 3 [0x79%N; 0x6F%N];
   text_at 1003 2 [0x20%N; 0x68%N; 0x69%N]].

(** [" /x"] from user 2: a space, a slash, an x. *)
Definition spaced_command : list Update :=
  [text_at 1000 2 [0x20%N; 0x2F%N; 0x78%N]].

Definition link_L : jsstring := [0x4C%N].

(** [/myinvite] sent by user [U] in chat [C]. *)
Definition myinvite_of (C U : Z) : Ctx :=
  {| chat_id := C;
     from := Some (User.mk U None None);
     message := {| text := Some [0x2F%N; 0x6D%N; 0x79%N; 0x69%N; 0x6E%N;
                                 0x76%N; 0x69%N; 0x74%N; 0x65%N];
                   reply_to_from := None;
                   new_chat_members := []; invite_link := None |} |}.

(** The service message for user 2 joining chat 1 through [link_L], with
    the clock at [t]. *)
Definition join_via (t : Z) : Update :=
  Msg (λ _, t)
      {| chat_id := 1;
         from := Some (User.mk 2 None None);
         message := {| text := None; reply_to_from := None;
                       new_chat_members := [User.mk 2 None None];
                       invite_link := Some link_L |} |}.

(** User 3 asks for a link and gets [link_L]; user 2 joins through it at
    time 0. *)
Definition joined_db : DB :=
  run [CmdMyinvite (myinvite_of 1 3) (Some link_L); join_via 0] empty_db.

(** User 2 then sends three texts. *)
Definition active_db : DB :=
  run [text_at 1000 2 hi; text_at 1001 2 hi; text_at 1002 2 hi] joined_db.

Definition pending_join : JoinRow :=
  {| inviter_id := Some 3; joined_at := 0; confirmed := 0 |}.

(** ** The leaderboard reply *)

(** A row of the leaderboard query. *)
Record LeaderRow := {
  l_user_id : Z;
  l_first_name : option jsstring;
  l_username : option jsstring;
  l_karma : Z;
  l_messages : Z;
  l_invites_confirmed : Z
}.

(** ORDER BY s.karma DESC, s.invites_confirmed DESC, s.messages DESC:
    [order_by a b] when [a] may come before [b]. *)
Definition order_by (a b : LeaderRow) : Prop :=
  l_karma b < l_karma a
  ∨ (l_karma a = l_karma b
     ∧ (l_invites_confirmed b < l_invites_confirmed a
        ∨ (l_invites_confirmed a = l_invites_confirmed b
           ∧ l_messages b ≤ l_messages a))).

#[global] Instance order_by_dec : RelDecision order_by.
Proof. intros a b. unfold order_by. apply _. Defined.

(** FROM stats s JOIN users u ON u.chat_id=s.chat_id AND u.user_id=s.user_id
    WHERE s.chat_id=? *)
Definition joined_rows (chatId : Z) (db : DB) : list LeaderRow :=
  omap (λ '((c, i), s),
          if c =? chatId then
            match users db !! (c, i) with
            | Some u =>
                Some {| l_user_id := i; l_first_name := first_name u;
                        l_username := username u; l_karma := karma s;
                        l_messages := messages s;
                        l_invites_confirmed := invites_confirmed s |}
            | None => None
            end
          else None)
       (map_to_list (stats db)).

(** The query of [/leaderboard], with its ORDER BY and LIMIT 10. *)
Definition top (chatId : Z) (db : DB) : list LeaderRow :=
  take 10 (merge_sort order_by (joined_rows chatId db)).

Fixpoint uint_units (d : Decimal.uint) : jsstring :=
  match d with
  | Decimal.Nil => []
  | Decimal.D0 d' => 0x30%N :: uint_units d'
  | Decimal.D1 d' => 0x31%N :: uint_units d'
  | Decimal.D2 d' => 0x32%N :: uint_units d'
  | Decimal.D3 d' => 0x33%N :: uint_units d'
  | Decimal.D4 d' => 0x34%N :: uint_units d'
  | Decimal.D5 d' => 0x35%N :: uint_units d'
  | Decimal.D6 d' => 0x36%N :: uint_units d'
  | Decimal.D7 d' => 0x37%N :: uint_units d'
  | Decimal.D8 d' => 0x38%N :: uint_units d'
  | Decimal.D9 d' => 0x39%N :: uint_units d'
  end.

(** [String(n)] and [`${n}`] for an integer [n]: its decimal digits, after
    a minus sign when it is negative (the form JavaScript uses below
    10^21). *)
Definition String_of_Z (n : Z) : jsstring :=
  match Z.to_int n with
  | Decimal.Pos d => uint_units d
  | Decimal.Neg d => 0x2D%N :: uint_units d
  end.

Definition at_sign : N := 0x40%N.

Definition displayName (row : LeaderRow) : jsstring :=
  if truthy_str (l_username row) then at_sign :: or_empty (l_username row)
  else if truthy_str (l_first_name row) then or_empty (l_first_name row)
  else String_of_Z (l_user_id row).

(** The literals of the leaderboard reply, as the source file spells
    them. *)
Definition no_points_text : jsstring :=
  [0x4E%N; 0x6F%N; 0x20%N; 0x46%N; 0x61%N; 0x6D%N; 0x50%N; 0x6F%N; 0x69%N;
   0x6E%N; 0x74%N; 0x73%N; 0x20%N; 0x79%N; 0x65%N; 0x74%N; 0x2E%N].

Definition board_header : jsstring :=
  [0xD83C%N; 0xDFC6%N; 0x20%N; 0x46%N; 0x61%N; 0x6D%N; 0x50%N; 0x6F%N;
   0x69%N; 0x6E%N; 0x74%N; 0x73%N; 0x20%N; 0x4C%N; 0x65%N; 0x61%N; 0x64%N;
   0x65%N; 0x72%N; 0x62%N; 0x6F%N; 0x61%N; 0x72%N; 0x64%N; 0xA%N].

Definition sep_rank : jsstring := [0x2E%N; 0x20%N].
Definition sep_karma : jsstring := [0x20%N; 0x2014%N; 0x20%N; 0x2795%N].
Definition sep_invites : jsstring :=
  [0x20%N; 0x7C%N; 0x20%N; 0xD83C%N; 0xDF9F%N; 0xFE0F%N].
Definition sep_messages : jsstring := [0x20%N; 0x7C%N; 0x20%N; 0xD83D%N; 0xDCAC%N].

(** The callback of [top.map]. *)
Definition board_line (i : nat) (r : LeaderRow) : jsstring :=
  String_of_Z (Z.of_nat i + 1) ++ sep_rank ++ displayName r
  ++ sep_karma ++ String_of_Z (l_karma r)
  ++ sep_invites ++ String_of_Z (l_invites_confirmed r)
  ++ sep_messages ++ String_of_Z (l_messages r).

(** [lines.join(sep)] *)
Fixpoint join (sep : jsstring) (lines : list jsstring) : jsstring :=
  match lines with
  | [] => []
  | [l] => l
  | l :: rest => l ++ sep ++ join sep rest
  end.

(** The text [/leaderboard] replies with. *)
Definition leaderboard_reply (ctx : Ctx) (db : DB) : jsstring :=
  match top (chat_id ctx) db with
  | [] => no_points_text
  | rows => board_header ++ join [0xA%N] (imap board_line rows)
  end.

(** ** More ways to read the handlers *)

(** The chat an update belongs to. *)
Definition chat_of (up : Update) : Z :=
  match up with
  | CmdMe ctx => chat_id ctx
  | CmdLeaderboard ctx => chat_id ctx
  | CmdMyinvite ctx _ => chat_id ctx
  | Msg _ ctx => chat_id ctx
  end.

(** What may happen to the row of key [k] of a table when chat [C] is
    written: a row of another chat is left as it is, and no row goes. *)
Definition cell_ok {V : Type} (C : Z) (k : Z * Z) (o o' : option V) : Prop :=
  (k.1 ≠ C → o' = o) ∧ (is_Some o → is_Some o').

Definition confined (C : Z) (db db' : DB) : Prop :=
  ∀ k, cell_ok C k (users db !! k) (users db' !! k)
       ∧ cell_ok C k (stats db !! k) (stats db' !! k)
       ∧ cell_ok C k (karma_cooldowns db !! k) (karma_cooldowns db' !! k)
       ∧ cell_ok C k (invite_links db !! k) (invite_links db' !! k)
       ∧ cell_ok C k (invite_joins db !! k) (invite_joins db' !! k).

(** Every user of the users table has a stats row. *)
Definition registered (db : DB) : Prop :=
  ∀ k, is_Some (users db !! k) → is_Some (stats db !! k).

(** Every join row has its flag at 0 or 1, and an inviter, if any, with a
    truthy id and a stats row. *)
Definition joins_wf (db : DB) : Prop :=
  ∀ k r, invite_joins db !! k = Some r →
    (confirmed r = 0 ∨ confirmed r = 1)
    ∧ ∀ i, inviter_id r = Some i → i ≠ 0 ∧ is_Some (stats db !! (k.1, i)).

(** The four counters that only ever grow. *)
Definition counters_grow (r r' : StatsRow) : Prop :=
  messages r ≤ messages r' ∧ karma r ≤ karma r'
  ∧ karma_given r ≤ karma_given r'
  ∧ invites_confirmed r ≤ invites_confirmed r'.

(** The counters a join notification leaves alone. *)
Definition join_quiet (r r' : StatsRow) : Prop :=
  messages r = messages r' ∧ karma r = karma r'
  ∧ karma_given r = karma_given r'
  ∧ invites_confirmed r = invites_confirmed r'.

(** The grant an update makes in [db], if it makes one: chat, giver,
    recipient. *)
Definition grant_of (up : Update) (db : DB) : option (Z * Z * Z) :=
  match up with
  | Msg now ctx =>
      match from ctx, reply_to_from (message ctx) with
      | Some u, Some target =>
          if grants now ctx db
          then Some (chat_id ctx, User.id u, User.id target) else None
      | _, _ => None
      end
  | _ => None
  end.

(** The grants made along a run. *)
Fixpoint grant_log (ups : list Update) (db : DB) : list (Z * Z * Z) :=
  match ups with
  | [] => []
  | up :: rest =>
      match grant_of up db with
      | Some g => g :: grant_log rest (handle up db)
      | None => grant_log rest (handle up db)
      end
  end.

Definition grants_to (C U : Z) (log : list (Z * Z * Z)) : Z :=
  Z.of_nat (length (filter (λ g, g.1.1 = C ∧ g.2 = U) log)).

Definition grants_by (C U : Z) (log : list (Z * Z * Z)) : Z :=
  Z.of_nat (length (filter (λ g, g.1.1 = C ∧ g.1.2 = U) log)).

(** The candidates query without its LIMIT. *)
Definition all_candidates (chatId : Z) (m : gmap (Z * Z) JoinRow)
  : list Candidate :=
  omap (λ '((c, j), r),
          if (c =? chatId) && (confirmed r =? 0) then
            match inviter_id r with
            | Some i =>
                Some {| c_joined_user_id := j; c_inviter_id := i;
                        c_joined_at := joined_at r |}
            | None => None
            end
          else None)
       (map_to_list m).

(** The inviter a join is attributed to: the code of [track_join] between
    the upsert and the insert. *)
Definition resolve_inviter (chatId : Z) (inviteLink : option jsstring)
    (db : DB) : option Z :=
  if truthy_str inviteLink then
    match select_inviter chatId (or_empty inviteLink) (invite_links db) with
    | Some i => if i =? 0 then None else Some i
    | None => None
    end
  else None.

(** * Properties *)

(** ** Strings *)

Example trim_spaced_plus : trim [0x20%N; 0x2B%N; 0xA%N] = plus_sign.
Proof. reflexivity. Qed.

Example trim_keeps_inner_space :
  trim [0x9%N; 0x68%N; 0x20%N; 0x69%N; 0xA0%N] = [0x68%N; 0x20%N; 0x69%N].
Proof. reflexivity. Qed.

Example startsWith_slash :
  startsWith [0x2F%N; 0x78%N] slash = true ∧ startsWith [] slash = false.
Proof. split; reflexivity. Qed.

(** ** Statements on one table *)

Section StatementLemmas.
Context {V : Type}.
Implicit Types (m : gmap (Z * Z) V) (k j : Z * Z) (v : V).

Lemma lookup_insert_or_ignore m k j v :
  insert_or_ignore k v m !! j =
    if decide (k = j) then Some (default v (m !! k)) else m !! j.
Proof.
  unfold insert_or_ignore. destruct (m !! k) as [x|] eqn:E.
  - case_decide; [subst j; by rewrite E | done].
  - rewrite lookup_insert. by case_decide.
Qed.

Lemma insert_or_ignore_present m k v :
  is_Some (m !! k) → insert_or_ignore k v m = m.
Proof. intros [x Hx]. unfold insert_or_ignore. by rewrite Hx. Qed.

Lemma insert_or_ignore_kept m k j v x :
  m !! j = Some x → insert_or_ignore k v m !! j = Some x.
Proof.
  intros Hj. rewrite lookup_insert_or_ignore.
  case_decide; [subst j; by rewrite Hj | done].
Qed.

Lemma insert_or_ignore_is_Some m k v : is_Some (insert_or_ignore k v m !! k).
Proof. rewrite lookup_insert_or_ignore. rewrite decide_True by done. eauto. Qed.
End StatementLemmas.

Lemma stats_of_Some db k r : stats db !! k = Some r → stats_of db k = r.
Proof. unfold stats_of. by intros ->. Qed.

Lemma stats_of_ensure db k j :
  stats_of (set_stats (insert_or_ignore k default_stats) db) j = stats_of db j.
Proof.
  unfold stats_of; simpl. rewrite lookup_insert_or_ignore.
  case_decide; [subst j|done]. by destruct (stats db !! k).
Qed.

Lemma stats_of_alter db f k j :
  stats_of (set_stats (alter f k) db) j =
    if decide (k = j)
    then match stats db !! k with
         | Some r => f r
         | None => default_stats
         end
    else stats_of db j.
Proof.
  unfold stats_of; simpl. rewrite lookup_alter.
  case_decide; [|done]. by destruct (stats db !! k).
Qed.

(** ** Relating the stats table before and after a block

    [stats_rel P db db'] holds when every row of [db] is still a row of
    [db'] and the counters of each key, read with [stats_of], are related by
    [P].  With [P] a preorder the relation composes along the statements of
    a handler. *)

Section StatsRel.
Variable P : StatsRow → StatsRow → Prop.
Hypothesis P_refl : ∀ r, P r r.
Hypothesis P_trans : ∀ a b c, P a b → P b c → P a c.

Lemma stats_rel_refl db : stats_rel P db db.
Proof. intros k. split; [apply P_refl | done]. Qed.

Lemma stats_rel_trans db1 db2 db3 :
  stats_rel P db1 db2 → stats_rel P db2 db3 → stats_rel P db1 db3.
Proof.
  intros H12 H23 k. destruct (H12 k) as [Ha Hb], (H23 k) as [Hc Hd].
  split; [by eapply P_trans | auto].
Qed.

Lemma stats_rel_same db db' : stats db' = stats db → stats_rel P db db'.
Proof. intros E k. unfold stats_of. rewrite E. split; [apply P_refl | done]. Qed.

Lemma stats_rel_ensure db k :
  stats_rel P db (set_stats (insert_or_ignore k default_stats) db).
Proof.
  intros j. rewrite stats_of_ensure. split; [apply P_refl|].
  simpl. intros [x Hx]. erewrite insert_or_ignore_kept; eauto.
Qed.

Lemma stats_rel_alter db f k :
  (∀ r, P r (f r)) → stats_rel P db (set_stats (alter f k) db).
Proof.
  intros Hf j. rewrite stats_of_alter. split.
  - case_decide; [subst j|apply P_refl].
    unfold stats_of. destruct (stats db !! k); simpl; [apply Hf | apply P_refl].
  - simpl. by rewrite lookup_alter_is_Some.
Qed.

Lemma stats_rel_set_users f db : stats_rel P db (set_users f db).
Proof. by apply stats_rel_same. Qed.

Lemma stats_rel_set_karma_cooldowns f db :
  stats_rel P db (set_karma_cooldowns f db).
Proof. by apply stats_rel_same. Qed.

Lemma stats_rel_set_invite_links f db : stats_rel P db (set_invite_links f db).
Proof. by apply stats_rel_same. Qed.

Lemma stats_rel_set_invite_joins f db : stats_rel P db (set_invite_joins f db).
Proof. by apply stats_rel_same. Qed.

(** Peels the last statement off the state on the right. *)
Ltac peel lem := eapply stats_rel_trans; [|apply lem].

Lemma upsertUser_rel chatId u db : stats_rel P db (upsertUser chatId u db).
Proof.
  unfold upsertUser. destruct u as [u|]; [|apply stats_rel_refl].
  destruct (User.id u =? 0); [apply stats_rel_refl|]. cbv zeta.
  peel stats_rel_ensure. apply stats_rel_set_users.
Qed.

Section Blocks.
Hypothesis P_messages : ∀ r, P r (inc_messages r).
Hypothesis P_karma : ∀ r, P r (inc_karma r).
Hypothesis P_karma_given : ∀ r, P r (inc_karma_given r).
Hypothesis P_pending : ∀ r, P r (inc_invites_pending r).
Hypothesis P_shift : ∀ r, P r (shift_invite r).

Lemma track_join_rel chatId link t joinUser db :
  stats_rel P db (track_join chatId link t joinUser db).
Proof using P_refl P_trans P_pending.
  unfold track_join.
  set (inviterId := if truthy_str link then _ else _).
  destruct inviterId as [i|]; cbv zeta.
  - peel stats_rel_alter; [|done]. peel stats_rel_ensure.
    peel stats_rel_set_invite_joins. apply upsertUser_rel.
  - peel stats_rel_set_invite_joins. apply upsertUser_rel.
Qed.

Lemma track_joins_rel chatId link now joined : ∀ n db,
  stats_rel P db (track_joins chatId link now n joined db).
Proof using P_refl P_trans P_pending.
  induction joined as [|j rest IH]; intros n db; simpl.
  - apply stats_rel_refl.
  - eapply stats_rel_trans; [apply track_join_rel | apply IH].
Qed.

Lemma count_message_rel chatId u m db :
  stats_rel P db (count_message chatId u m db).
Proof using P_refl P_messages.
  unfold count_message. destruct (counts_message m).
  - by apply stats_rel_alter.
  - apply stats_rel_refl.
Qed.

Lemma confirm_candidate_rel chatId t c db :
  stats_rel P db (confirm_candidate chatId t c db).
Proof using P_refl P_trans P_shift.
  unfold confirm_candidate.
  destruct (_ <? INVITE_CONFIRM_AFTER_SECONDS); [apply stats_rel_refl|].
  cbv zeta.
  destruct (_ <? INVITE_CONFIRM_MIN_MESSAGES); [apply stats_rel_refl|].
  peel stats_rel_alter; [|done]. apply stats_rel_set_invite_joins.
Qed.

Lemma confirm_loop_rel chatId now cs : ∀ n db,
  stats_rel P db (confirm_loop chatId now n cs db).
Proof using P_refl P_trans P_shift.
  induction cs as [|c rest IH]; intros n db; simpl.
  - apply stats_rel_refl.
  - eapply stats_rel_trans; [apply confirm_candidate_rel | apply IH].
Qed.

Lemma confirmation_sweep_rel chatId now n db :
  stats_rel P db (confirmation_sweep chatId now n db).
Proof using P_refl P_trans P_shift. apply confirm_loop_rel. Qed.

Lemma grant_karma_rel chatId u target now db :
  stats_rel P db (flow_db (grant_karma chatId u target now db)).
Proof using P_refl P_trans P_karma P_karma_given.
  unfold grant_karma.
  destruct (User.id target =? 0); [apply stats_rel_refl|].
  destruct (User.id target =? User.id u); [apply stats_rel_refl|].
  cbv zeta.
  match goal with |- context [if ?b then _ else _] => destruct b end;
    [apply stats_rel_refl|]. cbn [flow_db].
  peel stats_rel_alter; [|done]. peel stats_rel_alter; [|done].
  peel upsertUser_rel. apply stats_rel_set_karma_cooldowns.
Qed.

Lemma karma_block_rel chatId u m now db :
  stats_rel P db (flow_db (karma_block chatId u m now db)).
Proof using P_refl P_trans P_karma P_karma_given.
  unfold karma_block. destruct (karma_trigger m); [|apply stats_rel_refl].
  destruct (reply_to_from m); [apply grant_karma_rel | apply stats_rel_refl].
Qed.

Lemma on_message_rel now ctx db : stats_rel P db (on_message now ctx db).
Proof using All.
  unfold on_message. destruct (new_chat_members (message ctx)) eqn:E.
  - destruct (from ctx) as [u|]; [|apply stats_rel_refl].
    destruct (User.id u =? 0); [apply stats_rel_refl|]. cbv zeta.
    pose proof (karma_block_rel (chat_id ctx) u (message ctx) now
      (count_message (chat_id ctx) u (message ctx)
         (upsertUser (chat_id ctx) (Some u) db))) as Hk.
    assert (stats_rel P db (flow_db (karma_block (chat_id ctx) u (message ctx) now
      (count_message (chat_id ctx) u (message ctx)
         (upsertUser (chat_id ctx) (Some u) db))))) as Hk'.
    { eapply stats_rel_trans; [|exact Hk].
      peel count_message_rel. apply upsertUser_rel. }
    clear Hk. destruct (karma_block _ _ _ _ _) as [db3|n db3]; simpl in Hk'; [done|].
    eapply stats_rel_trans; [exact Hk' | apply confirmation_sweep_rel].
  - apply track_joins_rel.
Qed.

Lemma myinvite_rel ctx created db : stats_rel P db (fst (myinvite ctx created db)).
Proof using P_refl P_trans.
  pose proof (upsertUser_rel (chat_id ctx) (from ctx) db) as Hu.
  unfold myinvite. cbv zeta. destruct (from ctx) as [u|]; [|exact Hu].
  destruct (truthy_str _); [exact Hu|].
  destruct created as [link|]; [|exact Hu].
  destruct (insert_strict _ _ _); [|exact Hu]. cbn [fst].
  peel stats_rel_set_invite_links. exact Hu.
Qed.

Lemma handle_rel up db : stats_rel P db (handle up db).
Proof using All.
  destruct up as [ctx|ctx|ctx created|now ctx]; simpl.
  - pose proof (upsertUser_rel (chat_id ctx) (from ctx) db) as Hu.
    unfold me. cbv zeta. by destruct (from ctx).
  - apply stats_rel_refl.
  - apply myinvite_rel.
  - apply on_message_rel.
Qed.

Lemma run_rel ups : ∀ db, stats_rel P db (run ups db).
Proof using All.
  unfold run. induction ups as [|up ups IH]; intros db; simpl.
  - apply stats_rel_refl.
  - eapply stats_rel_trans; [apply handle_rel | apply IH].
Qed.
End Blocks.
End StatsRel.

(** ** Tables a block does not write *)

Lemma upsertUser_frame chatId u db :
  karma_cooldowns (upsertUser chatId u db) = karma_cooldowns db
  ∧ invite_links (upsertUser chatId u db) = invite_links db
  ∧ invite_joins (upsertUser chatId u db) = invite_joins db.
Proof.
  unfold upsertUser. destruct u as [u|]; [|done].
  by destruct (User.id u =? 0).
Qed.

Lemma count_message_frame chatId u m db :
  users (count_message chatId u m db) = users db
  ∧ karma_cooldowns (count_message chatId u m db) = karma_cooldowns db
  ∧ invite_links (count_message chatId u m db) = invite_links db
  ∧ invite_joins (count_message chatId u m db) = invite_joins db.
Proof. unfold count_message. by destruct (counts_message m). Qed.

Lemma track_join_frame chatId link t joinUser db :
  karma_cooldowns (track_join chatId link t joinUser db) = karma_cooldowns db
  ∧ invite_links (track_join chatId link t joinUser db) = invite_links db.
Proof.
  destruct (upsertUser_frame chatId (Some joinUser) db) as (Hc & Hl & _).
  unfold track_join.
  set (inviterId := if truthy_str link then _ else _).
  by destruct inviterId.
Qed.

Lemma track_joins_frame chatId link now joined : ∀ n db,
  karma_cooldowns (track_joins chatId link now n joined db) = karma_cooldowns db
  ∧ invite_links (track_joins chatId link now n joined db) = invite_links db.
Proof.
  induction joined as [|j rest IH]; intros n db; simpl; [done|].
  destruct (IH (S n) (track_join chatId link (now n) j db)) as [-> ->].
  apply track_join_frame.
Qed.

Lemma confirm_candidate_frame chatId t c db :
  users (confirm_candidate chatId t c db) = users db
  ∧ karma_cooldowns (confirm_candidate chatId t c db) = karma_cooldowns db
  ∧ invite_links (confirm_candidate chatId t c db) = invite_links db.
Proof.
  unfold confirm_candidate.
  destruct (_ <? INVITE_CONFIRM_AFTER_SECONDS); [done|]. cbv zeta.
  by destruct (_ <? INVITE_CONFIRM_MIN_MESSAGES).
Qed.

Lemma confirm_loop_frame chatId now cs : ∀ n db,
  users (confirm_loop chatId now n cs db) = users db
  ∧ karma_cooldowns (confirm_loop chatId now n cs db) = karma_cooldowns db
  ∧ invite_links (confirm_loop chatId now n cs db) = invite_links db.
Proof.
  induction cs as [|c rest IH]; intros n db; simpl; [done|].
  destruct (IH (S n) (confirm_candidate chatId (now n) c db)) as (-> & -> & ->).
  apply confirm_candidate_frame.
Qed.

(** ** Karma *)

Lemma karma_same_refl r : karma_same r r.
Proof. done. Qed.

Lemma karma_same_trans a b c : karma_same a b → karma_same b c → karma_same a c.
Proof. unfold karma_same. intros [] []. split; congruence. Qed.

Lemma karma_same_inc_messages r : karma_same r (inc_messages r).
Proof. done. Qed.

Lemma karma_same_inc_invites_pending r : karma_same r (inc_invites_pending r).
Proof. done. Qed.

Lemma karma_same_shift_invite r : karma_same r (shift_invite r).
Proof. done. Qed.

#[local] Hint Resolve karma_same_refl karma_same_trans karma_same_inc_messages
  karma_same_inc_invites_pending karma_same_shift_invite : core.

Lemma grant_karma_limited chatId u target now db :
  limited chatId u (now 0%nat) db = true →
  grant_karma chatId u target now db = Returned db.
Proof.
  unfold grant_karma, limited. intros H.
  destruct (User.id target =? 0); [done|].
  destruct (User.id target =? User.id u); [done|]. cbv zeta.
  by rewrite H.
Qed.

Lemma grant_karma_self chatId u target now db :
  User.id target = User.id u →
  grant_karma chatId u target now db = Returned db.
Proof.
  unfold grant_karma. intros ->.
  destruct (User.id u =? 0); [done|]. by rewrite Z.eqb_refl.
Qed.

Lemma grant_karma_granted chatId u target now db :
  User.id target ≠ 0 → User.id target ≠ User.id u →
  limited chatId u (now 0%nat) db = false →
  grant_karma chatId u target now db
    = Fell 1 (granted chatId u target (now 0%nat) db).
Proof.
  unfold grant_karma, limited. intros H0 Hne H.
  destruct (Z.eqb_spec (User.id target) 0); [done|].
  destruct (Z.eqb_spec (User.id target) (User.id u)); [done|]. cbv zeta.
  by rewrite H.
Qed.

(** A handler run that does not grant leaves the cooldowns and both karma
    counters of every user as they were. *)
Lemma on_message_no_grant now ctx db :
  grants now ctx db = false →
  karma_cooldowns (on_message now ctx db) = karma_cooldowns db
  ∧ stats_rel karma_same db (on_message now ctx db).
Proof.
  unfold grants, on_message. cbv zeta.
  destruct (new_chat_members (message ctx)) as [|j js] eqn:Ej.
  2:{ intros _. split; [apply track_joins_frame|].
      apply track_joins_rel; eauto. }
  destruct (from ctx) as [u|]; [|intros _; split; [done|apply stats_rel_refl; eauto]].
  destruct (Z.eqb_spec (User.id u) 0) as [|Hu];
    [intros _; split; [done|apply stats_rel_refl; eauto]|].
  set (db1 := upsertUser (chat_id ctx) (Some u) db).
  set (db2 := count_message (chat_id ctx) u (message ctx) db1).
  assert (karma_cooldowns db2 = karma_cooldowns db) as Hcd.
  { unfold db2, db1.
    destruct (count_message_frame (chat_id ctx) u (message ctx)
                (upsertUser (chat_id ctx) (Some u) db)) as (_ & -> & _).
    apply upsertUser_frame. }
  assert (stats_rel karma_same db db2) as Hst.
  { eapply stats_rel_trans; [eauto | apply upsertUser_rel; eauto |].
    apply count_message_rel; eauto. }
  assert (∀ n, karma_cooldowns (confirmation_sweep (chat_id ctx) now n db2)
                 = karma_cooldowns db
               ∧ stats_rel karma_same db
                   (confirmation_sweep (chat_id ctx) now n db2)) as Hsweep.
  { intros n. split.
    - unfold confirmation_sweep.
      destruct (confirm_loop_frame (chat_id ctx) now
        (select_candidates (chat_id ctx) (invite_joins db2)) n db2) as (_ & -> & _).
      exact Hcd.
    - eapply stats_rel_trans; [eauto | exact Hst |].
      apply confirmation_sweep_rel; eauto. }
  unfold karma_block.
  destruct (karma_trigger (message ctx)) eqn:Etr; simpl;
    [|intros _; apply Hsweep].
  destruct (reply_to_from (message ctx)) as [target|]; [|intros _; apply Hsweep].
  destruct (Z.eqb_spec (User.id target) 0) as [E0|N0]; simpl.
  { intros _. unfold grant_karma. rewrite E0. simpl. done. }
  destruct (Z.eqb_spec (User.id target) (User.id u)) as [Eu|Nu]; simpl.
  { intros _. by rewrite grant_karma_self. }
  rewrite negb_false_iff. intros Hlim.
  rewrite grant_karma_limited; [done|].
  unfold limited in *. by rewrite Hcd.
Qed.

Lemma upsertUser_stats_is_Some chatId (u : User.t) db :
  User.id u ≠ 0 → is_Some (stats (upsertUser chatId (Some u) db) !! (chatId, User.id u)).
Proof.
  intros Hu. unfold upsertUser.
  destruct (Z.eqb_spec (User.id u) 0); [done|]. simpl.
  apply insert_or_ignore_is_Some.
Qed.

Lemma stats_of_granted chatId u target t db k :
  is_Some (stats db !! (chatId, User.id u)) →
  User.id target ≠ 0 → User.id target ≠ User.id u →
  karma (stats_of (granted chatId u target t db) k)
    = karma (stats_of db k)
      + (if decide (k = (chatId, User.id target)) then 1 else 0)
  ∧ karma_given (stats_of (granted chatId u target t db) k)
    = karma_given (stats_of db k)
      + (if decide (k = (chatId, User.id u)) then 1 else 0).
Proof.
  intros [ru Hru] H0 Hne. unfold granted, upsertUser.
  destruct (Z.eqb_spec (User.id target) 0); [done|].
  unfold stats_of. simpl.
  rewrite !lookup_alter, !lookup_insert_or_ignore.
  repeat case_decide; simplify_eq; rewrite ?Hru;
    try (destruct (stats db !! _)); simpl; lia.
Qed.

(** A handler run that grants writes the clock value it compared as the
    giver's cooldown, adds one to the target's karma and one to the giver's
    karma_given, and leaves both counters of every other row alone. *)
Lemma on_message_grant now ctx db u target :
  new_chat_members (message ctx) = [] →
  from ctx = Some u →
  reply_to_from (message ctx) = Some target →
  grants now ctx db = true →
  karma_cooldowns (on_message now ctx db)
    = <[(chat_id ctx, User.id u) := now 0%nat]> (karma_cooldowns db)
  ∧ ∀ k,
      karma (stats_of (on_message now ctx db) k)
        = karma (stats_of db k)
          + (if decide (k = (chat_id ctx, User.id target)) then 1 else 0)
      ∧ karma_given (stats_of (on_message now ctx db) k)
        = karma_given (stats_of db k)
          + (if decide (k = (chat_id ctx, User.id u)) then 1 else 0).
Proof.
  intros Ej Eu Et. unfold grants, on_message. cbv zeta. rewrite Ej, Eu, Et.
  destruct (Z.eqb_spec (User.id u) 0) as [|Hu]; [done|].
  destruct (karma_trigger (message ctx)) eqn:Etr; [|done].
  destruct (Z.eqb_spec (User.id target) 0) as [|H0]; [done|].
  destruct (Z.eqb_spec (User.id target) (User.id u)) as [|Hne]; [done|].
  cbn [negb andb]. rewrite negb_true_iff. intros Hlim.
  set (db1 := upsertUser (chat_id ctx) (Some u) db).
  set (db2 := count_message (chat_id ctx) u (message ctx) db1).
  assert (karma_cooldowns db2 = karma_cooldowns db) as Hcd.
  { unfold db2, db1.
    destruct (count_message_frame (chat_id ctx) u (message ctx)
                (upsertUser (chat_id ctx) (Some u) db)) as (_ & -> & _).
    apply upsertUser_frame. }
  assert (stats_rel karma_same db db2) as Hst.
  { eapply stats_rel_trans; [eauto | apply upsertUser_rel; eauto |].
    apply count_message_rel; eauto. }
  assert (is_Some (stats db2 !! (chat_id ctx, User.id u))) as Hrow.
  { pose proof (count_message_rel (λ _ _, True) (λ _, I) (λ _, I)
                  (chat_id ctx) u (message ctx) db1) as Hc.
    apply Hc. by apply upsertUser_stats_is_Some. }
  unfold karma_block. rewrite Etr, Et.
  rewrite grant_karma_granted; [|done|done|].
  2:{ unfold limited in *. by rewrite Hcd. }
  set (db3 := granted _ _ _ _ _).
  unfold confirmation_sweep.
  destruct (confirm_loop_frame (chat_id ctx) now
    (select_candidates (chat_id ctx) (invite_joins db3)) 1 db3) as (_ & -> & _).
  split.
  - unfold db3, granted. cbn [set_stats karma_cooldowns].
    destruct (upsertUser_frame (chat_id ctx) (Some target)
      (set_karma_cooldowns <[(chat_id ctx, User.id u):=now 0%nat]> db2)) as (-> & _).
    cbn [set_karma_cooldowns karma_cooldowns]. by rewrite Hcd.
  - intros k.
    pose proof (confirm_loop_rel karma_same karma_same_refl karma_same_trans
      karma_same_shift_invite (chat_id ctx) now
      (select_candidates (chat_id ctx) (invite_joins db3)) 1%nat db3 k) as [[Hk1 Hk2] _].
    rewrite <- Hk1, <- Hk2. subst db3.
    destruct (stats_of_granted (chat_id ctx) u target (now 0%nat) db2 k Hrow H0 Hne)
      as [-> ->].
    destruct (Hst k) as [[-> ->] _]. done.
Qed.

Lemma grants_true_inv now ctx db :
  grants now ctx db = true →
  ∃ u target,
    new_chat_members (message ctx) = [] ∧ from ctx = Some u
    ∧ reply_to_from (message ctx) = Some target
    ∧ User.id u ≠ 0 ∧ karma_trigger (message ctx) = true
    ∧ User.id target ≠ 0 ∧ User.id target ≠ User.id u
    ∧ limited (chat_id ctx) u (now 0%nat) db = false.
Proof.
  unfold grants.
  destruct (new_chat_members (message ctx)); [|done].
  destruct (from ctx) as [u|]; [|done].
  destruct (reply_to_from (message ctx)) as [target|]; [|done].
  rewrite !andb_true_iff, !negb_true_iff, !Z.eqb_neq.
  intros ((((? & ?) & ?) & ?) & ?). by exists u, target.
Qed.

Lemma grants_limited now ctx db u :
  from ctx = Some u →
  limited (chat_id ctx) u (now 0%nat) db = true →
  grants now ctx db = false.
Proof.
  intros Eu Hlim. unfold grants. rewrite Eu.
  destruct (new_chat_members (message ctx)); [|done].
  destruct (reply_to_from (message ctx)); [|done].
  rewrite Hlim. simpl. by rewrite !andb_false_r.
Qed.

Lemma limited_true_iff chatId u t db :
  limited chatId u t db = true ↔
  ∃ last_at, karma_cooldowns db !! (chatId, User.id u) = Some last_at
             ∧ t - last_at < KARMA_COOLDOWN_SECONDS.
Proof.
  unfold limited. destruct (karma_cooldowns db !! _) as [x|].
  - rewrite Z.ltb_lt. split; [eauto|]. by intros (? & [= <-] & ?).
  - split; [done|]. by intros (? & ? & _).
Qed.

Lemma myinvite_frame ctx created db :
  karma_cooldowns (fst (myinvite ctx created db)) = karma_cooldowns db
  ∧ invite_joins (fst (myinvite ctx created db)) = invite_joins db.
Proof.
  destruct (upsertUser_frame (chat_id ctx) (from ctx) db) as (Hc & _ & Hj).
  unfold myinvite. cbv zeta. destruct (from ctx) as [u|]; [|done].
  destruct (truthy_str _); [done|].
  destruct created as [link|]; [|done].
  by destruct (insert_strict _ _ _).
Qed.

Lemma me_frame ctx db :
  karma_cooldowns (fst (me ctx db)) = karma_cooldowns db
  ∧ invite_links (fst (me ctx db)) = invite_links db
  ∧ invite_joins (fst (me ctx db)) = invite_joins db.
Proof.
  pose proof (upsertUser_frame (chat_id ctx) (from ctx) db) as H.
  unfold me. cbv zeta. by destruct (from ctx).
Qed.

(** A cooldown row is never deleted and its timestamp never moves back. *)
Lemma handle_cooldown up db k x :
  karma_cooldowns db !! k = Some x →
  ∃ x', karma_cooldowns (handle up db) !! k = Some x' ∧ x ≤ x'.
Proof.
  intros Hx. destruct up as [ctx|ctx|ctx created|now ctx]; simpl.
  - destruct (me_frame ctx db) as (-> & _). eauto with lia.
  - unfold leaderboard. eauto with lia.
  - destruct (myinvite_frame ctx created db) as (-> & _). eauto with lia.
  - destruct (grants now ctx db) eqn:Eg.
    + destruct (grants_true_inv _ _ _ Eg)
        as (u & target & Ej & Eu & Et & _ & _ & _ & _ & Hlim).
      destruct (on_message_grant now ctx db u target Ej Eu Et Eg) as [-> _].
      rewrite lookup_insert. case_decide as Hk; [|eauto with lia].
      subst k. eexists; split; [done|].
      unfold limited in Hlim. rewrite Hx in Hlim.
      apply Z.ltb_ge in Hlim. unfold KARMA_COOLDOWN_SECONDS in Hlim. lia.
    + destruct (on_message_no_grant now ctx db Eg) as [-> _]. eauto with lia.
Qed.

Lemma run_cooldown ups : ∀ db k x,
  karma_cooldowns db !! k = Some x →
  ∃ x', karma_cooldowns (run ups db) !! k = Some x' ∧ x ≤ x'.
Proof.
  unfold run. induction ups as [|up ups IH]; intros db k x Hx; simpl.
  - eauto with lia.
  - destruct (handle_cooldown up db k x Hx) as (x1 & H1 & Hle).
    destruct (IH _ _ _ H1) as (x2 & H2 & Hle2). eauto with lia.
Qed.

(** The guard of the karma block, read off the message. *)
Lemma karma_trigger_true_iff m :
  karma_trigger m = true ↔
  (∃ s, text m = Some s ∧ trim s = plus_sign) ∧ is_Some (reply_to_from m).
Proof.
  unfold karma_trigger.
  rewrite !andb_true_iff, !bool_decide_eq_true. split.
  - intros [[Ht Hp] Hr]. split; [|done].
    destruct (text m) as [s|]; [|done]. by exists s.
  - intros [(s & Hs & Hp) Hr]. rewrite Hs. simpl. repeat split; [|done|done].
    destruct s; [done|done].
Qed.

Lemma counts_message_plus m s :
  text m = Some s → trim s = plus_sign → counts_message m = true.
Proof.
  intros Hs Hp. unfold counts_message. rewrite Hs. simpl. rewrite Hp.
  destruct s; [discriminate Hp | done].
Qed.

Lemma stats_of_count_message chatId u m db k :
  is_Some (stats db !! (chatId, User.id u)) →
  stats_of (count_message chatId u m db) k =
    if counts_message m && bool_decide (k = (chatId, User.id u))
    then inc_messages (stats_of db k) else stats_of db k.
Proof.
  intros [r Hr]. unfold count_message.
  destruct (counts_message m); [|done].
  rewrite stats_of_alter. simpl. rewrite Hr.
  case_decide; subst.
  - rewrite bool_decide_eq_true_2 by done. by rewrite (stats_of_Some _ _ _ Hr).
  - by rewrite bool_decide_eq_false_2 by congruence.
Qed.

Lemma stats_of_upsertUser chatId u db k :
  stats_of (upsertUser chatId u db) k = stats_of db k.
Proof.
  unfold upsertUser. destruct u as [u|]; [|done].
  destruct (User.id u =? 0); [done|]. cbv zeta.
  by rewrite stats_of_ensure.
Qed.

(** C1.  A reply ["+"] from [u] to a message of another user [target]:
    - when [u] has a cooldown row less than 30 seconds old, the karma block
      returns at once: the handler leaves the database as it was on entering
      the block (sender upserted, message counted), so no karma, karma_given,
      invite counter or cooldown of anyone has moved, whoever [target] is;
    - otherwise the cooldown of [u] becomes the clock value just read, the
      karma of [target] and the karma_given of [u] each grow by one, both
      counters of every other row keep their value, and whatever updates
      follow, a later message of [u] in this chat whose first clock read is
      less than 30 seconds after the grant changes no cooldown, karma or
      karma_given. *)
Theorem karma_grant_cooldown now ctx db u target s :
  new_chat_members (message ctx) = [] →
  from ctx = Some u → User.id u ≠ 0 →
  text (message ctx) = Some s → trim s = plus_sign →
  reply_to_from (message ctx) = Some target →
  User.id target ≠ 0 → User.id target ≠ User.id u →
  let giver := (chat_id ctx, User.id u) in
  let recipient := (chat_id ctx, User.id target) in
  let db' := on_message now ctx db in
  (∀ last_at,
      karma_cooldowns db !! giver = Some last_at →
      now 0%nat - last_at < KARMA_COOLDOWN_SECONDS →
      db' = count_message (chat_id ctx) u (message ctx)
              (upsertUser (chat_id ctx) (Some u) db)
      ∧ karma_cooldowns db' = karma_cooldowns db
      ∧ ∀ k, stats_of db' k =
               if bool_decide (k = giver) then inc_messages (stats_of db k)
               else stats_of db k)
  ∧ (karma_cooldowns db !! giver = None
     ∨ (∃ last_at, karma_cooldowns db !! giver = Some last_at
                   ∧ KARMA_COOLDOWN_SECONDS ≤ now 0%nat - last_at) →
     karma_cooldowns db' = <[giver := now 0%nat]> (karma_cooldowns db)
     ∧ (∀ k,
          karma (stats_of db' k)
            = karma (stats_of db k) + (if decide (k = recipient) then 1 else 0)
          ∧ karma_given (stats_of db' k)
            = karma_given (stats_of db k) + (if decide (k = giver) then 1 else 0))
     ∧ ∀ ups now2 ctx2 u2,
         chat_id ctx2 = chat_id ctx → from ctx2 = Some u2 →
         User.id u2 = User.id u →
         now2 0%nat - now 0%nat < KARMA_COOLDOWN_SECONDS →
         let dbm := run ups db' in
         karma_cooldowns (on_message now2 ctx2 dbm) = karma_cooldowns dbm
         ∧ ∀ k, karma (stats_of (on_message now2 ctx2 dbm) k)
                  = karma (stats_of dbm k)
                ∧ karma_given (stats_of (on_message now2 ctx2 dbm) k)
                  = karma_given (stats_of dbm k)).
Proof.
  intros Ej Eu Hu Hs Hp Et H0 Hne giver recipient db'.
  assert (karma_trigger (message ctx) = true) as Etr.
  { apply karma_trigger_true_iff. rewrite Et. eauto. }
  split.
  - intros last_at Hcd Hlt.
    assert (limited (chat_id ctx) u (now 0%nat) db = true) as Hlim.
    { apply limited_true_iff. eauto. }
    assert (db' = count_message (chat_id ctx) u (message ctx)
                    (upsertUser (chat_id ctx) (Some u) db)) as Hdb'.
    { unfold db', on_message. cbv zeta. rewrite Ej, Eu.
      destruct (Z.eqb_spec (User.id u) 0); [done|].
      unfold karma_block. rewrite Etr, Et.
      rewrite grant_karma_limited; [done|].
      unfold limited in *.
      destruct (count_message_frame (chat_id ctx) u (message ctx)
                  (upsertUser (chat_id ctx) (Some u) db)) as (_ & -> & _).
      by destruct (upsertUser_frame (chat_id ctx) (Some u) db) as (-> & _). }
    split; [done|]. split.
    + apply on_message_no_grant. by eapply grants_limited.
    + intros k. rewrite Hdb'.
      rewrite stats_of_count_message by by apply upsertUser_stats_is_Some.
      rewrite (counts_message_plus _ _ Hs Hp), stats_of_upsertUser. done.
  - intros Hfree.
    assert (limited (chat_id ctx) u (now 0%nat) db = false) as Hlim.
    { unfold limited. fold giver.
      destruct Hfree as [->|(x & -> & Hx)]; [done|]. by apply Z.ltb_ge. }
    assert (grants now ctx db = true) as Hg.
    { unfold grants. rewrite Ej, Eu, Et, Etr, Hlim.
      destruct (Z.eqb_spec (User.id u) 0); [done|].
      destruct (Z.eqb_spec (User.id target) 0); [done|].
      by destruct (Z.eqb_spec (User.id target) (User.id u)). }
    destruct (on_message_grant now ctx db u target Ej Eu Et Hg) as [Hcd Hk].
    split; [exact Hcd|]. split; [exact Hk|].
    intros ups now2 ctx2 u2 Ec Eu2 Eid Hlt dbm.
    assert (karma_cooldowns db' !! giver = Some (now 0%nat)) as Hnow.
    { unfold db'. rewrite Hcd. apply lookup_insert_eq. }
    destruct (run_cooldown ups db' giver _ Hnow) as (x' & Hx' & Hle).
    assert (grants now2 ctx2 dbm = false) as Hg2.
    { eapply grants_limited; [exact Eu2|]. apply limited_true_iff.
      exists x'. rewrite Ec, Eid. split; [exact Hx'|]. lia. }
    destruct (on_message_no_grant now2 ctx2 dbm Hg2) as [Hc2 Hs2].
    split; [exact Hc2|]. intros k. destruct (Hs2 k) as [[-> ->] _]. done.
Qed.

Lemma karma_grant_cooldown_witness :
  karma (stats_of (on_message (λ _, 1000) plus_reply empty_db) (1, 3)) = 1
  ∧ karma_given (stats_of (on_message (λ _, 1000) plus_reply empty_db) (1, 2)) = 1.
Proof.
  pose proof (karma_grant_cooldown (λ _, 1000) plus_reply empty_db
                (User.mk 2 None None) (User.mk 3 None None) plus_sign
                eq_refl eq_refl ltac:(simpl; lia) eq_refl eq_refl eq_refl
                ltac:(simpl; lia) ltac:(simpl; lia)) as [_ Hgrant].
  destruct (Hgrant (or_introl eq_refl)) as (_ & Hk & _).
  split.
  - destruct (Hk (1, 3)) as [-> _]. reflexivity.
  - destruct (Hk (1, 2)) as [_ ->]. reflexivity.
Defined.

(** C7.  When the author of the replied-to message is the sender, the karma
    block returns the database it was given, and the handler run changes no
    cooldown, no karma and no karma_given of any user. *)
Theorem self_grant_changes_nothing now ctx db u target :
  from ctx = Some u →
  reply_to_from (message ctx) = Some target →
  User.id target = User.id u →
  (∀ d, grant_karma (chat_id ctx) u target now d = Returned d)
  ∧ karma_cooldowns (on_message now ctx db) = karma_cooldowns db
  ∧ ∀ k, karma (stats_of (on_message now ctx db) k) = karma (stats_of db k)
         ∧ karma_given (stats_of (on_message now ctx db) k)
           = karma_given (stats_of db k).
Proof.
  intros Eu Et Eid. split; [intros d; by apply grant_karma_self|].
  assert (grants now ctx db = false) as Hg.
  { unfold grants. rewrite Eu, Et, Eid, Z.eqb_refl.
    destruct (new_chat_members (message ctx)); [|done].
    simpl. by rewrite andb_false_r. }
  destruct (on_message_no_grant now ctx db Hg) as [Hc Hs].
  split; [exact Hc|]. intros k. destruct (Hs k) as [[-> ->] _]. done.
Qed.

Lemma self_grant_changes_nothing_witness :
  karma_cooldowns (on_message (λ _, 1000) self_reply empty_db) = ∅.
Proof.
  exact (proj1 (proj2 (self_grant_changes_nothing (λ _, 1000) self_reply
                         empty_db (User.mk 2 None None) (User.mk 2 None None)
                         eq_refl eq_refl eq_refl))).
Defined.

(** C5 (amended).  In a run of the message handler that reaches the karma
    guard, the body of the karma block is entered exactly when the text,
    once [trim] has stripped the white space around it, is ["+"] and the
    replied-to message has an author; otherwise the handler goes straight
    to the confirmation sweep, and no cooldown, karma or karma_given
    changes. *)
Theorem karma_engine_trigger now ctx db u :
  new_chat_members (message ctx) = [] →
  from ctx = Some u → User.id u ≠ 0 →
  let m := message ctx in
  let db2 := count_message (chat_id ctx) u m
               (upsertUser (chat_id ctx) (Some u) db) in
  let triggered :=
    (∃ s, text m = Some s ∧ trim s = plus_sign) ∧ is_Some (reply_to_from m) in
  (triggered →
     ∃ target,
       reply_to_from m = Some target
       ∧ on_message now ctx db =
           match grant_karma (chat_id ctx) u target now db2 with
           | Returned d => d
           | Fell n d => confirmation_sweep (chat_id ctx) now n d
           end)
  ∧ (¬ triggered →
     on_message now ctx db = confirmation_sweep (chat_id ctx) now 0 db2
     ∧ karma_cooldowns (on_message now ctx db) = karma_cooldowns db
     ∧ ∀ k, karma (stats_of (on_message now ctx db) k) = karma (stats_of db k)
            ∧ karma_given (stats_of (on_message now ctx db) k)
              = karma_given (stats_of db k)).
Proof.
  intros Ej Eu Hu m db2 triggered. split.
  - intros Htr. pose proof Htr as [_ [target Et]].
    apply karma_trigger_true_iff in Htr.
    exists target. split; [done|].
    unfold on_message. cbv zeta. rewrite Ej, Eu.
    destruct (Z.eqb_spec (User.id u) 0); [done|].
    unfold karma_block. fold m. by rewrite Htr, Et.
  - intros Hno.
    assert (karma_trigger m = false) as Htr.
    { apply not_true_is_false. by rewrite karma_trigger_true_iff. }
    split.
    + unfold on_message. cbv zeta. rewrite Ej, Eu.
      destruct (Z.eqb_spec (User.id u) 0); [done|].
      unfold karma_block. fold m. by rewrite Htr.
    + assert (grants now ctx db = false) as Hg.
      { unfold grants. rewrite Ej, Eu. fold m. rewrite Htr.
        destruct (reply_to_from m); [|done]. by rewrite andb_false_r. }
      destruct (on_message_no_grant now ctx db Hg) as [Hc Hs].
      split; [exact Hc|]. intros k. destruct (Hs k) as [[-> ->] _]. done.
Qed.

Lemma karma_engine_trigger_witness :
  ∃ target,
    reply_to_from (message plus_reply) = Some target
    ∧ on_message (λ _, 1000) plus_reply empty_db =
        match grant_karma 1 (User.mk 2 None None) target (λ _, 1000)
                (count_message 1 (User.mk 2 None None) (message plus_reply)
                   (upsertUser 1 (Some (User.mk 2 None None)) empty_db)) with
        | Returned d => d
        | Fell n d => confirmation_sweep 1 (λ _, 1000) n d
        end.
Proof.
  apply (karma_engine_trigger (λ _, 1000) plus_reply empty_db
           (User.mk 2 None None) eq_refl eq_refl ltac:(simpl; lia)).
  split; [exists plus_sign; split; reflexivity | by eexists].
Defined.

(** C5 in the wording of the specification, which wants the text to be
    exactly ["+"] with no white space around it, fails: the text [" +"] is
    not ["+"], and the reply still earns its target a point. *)
Lemma karma_engine_trigger_counterexample :
  text (message spaced_plus_reply) ≠ Some plus_sign
  ∧ karma (stats_of empty_db (1, 3)) = 0
  ∧ karma (stats_of (on_message (λ _, 1000) spaced_plus_reply empty_db) (1, 3)) = 1
  ∧ karma_given
      (stats_of (on_message (λ _, 1000) spaced_plus_reply empty_db) (1, 2)) = 1.
Proof. repeat split; [discriminate | vm_compute; reflexivity ..]. Qed.

(** C10.  For a user who already has a stats row, [upsertUser] leaves the
    stats table as it is, that row included: the insert into stats meets
    the conflict and does nothing.  The cooldown, link and join tables are
    untouched, and in the users table only the row of this user is written,
    with the two identity fields. *)
Theorem upsertUser_keeps_counters chatId (u : User.t) db r :
  stats db !! (chatId, User.id u) = Some r →
  let db' := upsertUser chatId (Some u) db in
  stats db' = stats db
  ∧ stats db' !! (chatId, User.id u) = Some r
  ∧ karma_cooldowns db' = karma_cooldowns db
  ∧ invite_links db' = invite_links db
  ∧ invite_joins db' = invite_joins db
  ∧ (∀ k, k ≠ (chatId, User.id u) → users db' !! k = users db !! k)
  ∧ (User.id u ≠ 0 →
     users db' !! (chatId, User.id u)
       = Some {| username := or_null (User.username u);
                 first_name := or_null (User.first_name u) |}).
Proof.
  intros Hr db'.
  destruct (upsertUser_frame chatId (Some u) db) as (Hc & Hl & Hj).
  assert (stats db' = stats db) as Hs.
  { unfold db', upsertUser. destruct (User.id u =? 0); [done|]. simpl.
    apply insert_or_ignore_present. eauto. }
  split; [exact Hs|]. split; [by rewrite Hs|].
  split; [exact Hc|]. split; [exact Hl|]. split; [exact Hj|]. split.
  - intros k Hk. unfold db', upsertUser.
    destruct (User.id u =? 0); [done|]. simpl. by rewrite lookup_insert_ne.
  - intros Hu. unfold db', upsertUser.
    destruct (Z.eqb_spec (User.id u) 0); [done|]. simpl.
    apply lookup_insert_eq.
Qed.

Lemma upsertUser_keeps_counters_witness :
  stats (upsertUser 1 (Some (User.mk 2 (Some [0x61%N]) None))
           (set_stats (insert (1, 2) busy_stats) empty_db)) !! (1, 2)
    = Some busy_stats.
Proof.
  apply (upsertUser_keeps_counters 1 (User.mk 2 (Some [0x61%N]) None)
           (set_stats (insert (1, 2) busy_stats) empty_db) busy_stats).
  vm_compute. reflexivity.
Defined.

(** ** Message counter *)

Lemma messages_same_refl r : messages_same r r.
Proof. done. Qed.

Lemma messages_same_trans a b c :
  messages_same a b → messages_same b c → messages_same a c.
Proof. unfold messages_same. congruence. Qed.

Lemma messages_same_inc_karma r : messages_same r (inc_karma r).
Proof. done. Qed.

Lemma messages_same_inc_karma_given r : messages_same r (inc_karma_given r).
Proof. done. Qed.

Lemma messages_same_inc_invites_pending r :
  messages_same r (inc_invites_pending r).
Proof. done. Qed.

Lemma messages_same_shift_invite r : messages_same r (shift_invite r).
Proof. done. Qed.

#[local] Hint Resolve messages_same_refl messages_same_trans
  messages_same_inc_karma messages_same_inc_karma_given
  messages_same_inc_invites_pending messages_same_shift_invite : core.

Lemma on_message_messages now ctx db C U :
  messages (stats_of (on_message now ctx db) (C, U))
    = messages (stats_of db (C, U))
      + (if counted C U (Msg now ctx) then 1 else 0).
Proof.
  unfold counted, on_message. cbv zeta.
  destruct (new_chat_members (message ctx)) as [|j js] eqn:Ej.
  2:{ rewrite Z.add_0_r. symmetry.
      apply (track_joins_rel messages_same); eauto. }
  destruct (from ctx) as [u|]; [|lia].
  destruct (Z.eqb_spec (User.id u) 0) as [|Hu]; [simpl; lia|].
  set (db2 := count_message (chat_id ctx) u (message ctx)
                (upsertUser (chat_id ctx) (Some u) db)).
  assert (messages (stats_of db2 (C, U))
          = messages (stats_of db (C, U))
            + (if negb false && counts_message (message ctx)
                  && (chat_id ctx =? C) && (User.id u =? U)
               then 1 else 0)) as H2.
  { unfold db2.
    rewrite stats_of_count_message by by apply upsertUser_stats_is_Some.
    rewrite stats_of_upsertUser. simpl negb. rewrite andb_true_l.
    destruct (counts_message (message ctx)); simpl; [|lia].
    case_bool_decide as Hk.
    - injection Hk as -> ->. rewrite !Z.eqb_refl. simpl. lia.
    - destruct (Z.eqb_spec (chat_id ctx) C), (Z.eqb_spec (User.id u) U);
        simpl; try lia. congruence. }
  rewrite <- H2.
  pose proof (karma_block_rel messages_same messages_same_refl
    messages_same_trans messages_same_inc_karma messages_same_inc_karma_given
    (chat_id ctx) u (message ctx) now db2 (C, U)) as [Hk _].
  destruct (karma_block _ _ _ _ _) as [db3|n db3]; simpl in Hk; [done|].
  rewrite Hk. symmetry.
  apply (confirmation_sweep_rel messages_same); eauto.
Qed.

Lemma handle_messages up db C U :
  messages (stats_of (handle up db) (C, U))
    = messages (stats_of db (C, U)) + (if counted C U up then 1 else 0).
Proof.
  destruct up as [ctx|ctx|ctx created|now ctx].
  - cbn [handle counted]. rewrite Z.add_0_r. unfold me. cbv zeta.
    pose proof (stats_of_upsertUser (chat_id ctx) (from ctx) db (C, U)) as H.
    by destruct (from ctx); cbn [fst]; rewrite H.
  - simpl. unfold leaderboard. lia.
  - simpl. rewrite Z.add_0_r. symmetry.
    apply (myinvite_rel messages_same); eauto.
  - apply on_message_messages.
Qed.

Lemma run_messages ups : ∀ db C U,
  messages (stats_of (run ups db) (C, U))
    = messages (stats_of db (C, U)) + count_updates (counted C U) ups.
Proof.
  unfold run. induction ups as [|up ups IH]; intros db C U; simpl; [lia|].
  rewrite IH, handle_messages. lia.
Qed.

Lemma counted_plain_text_trimmed C U up :
  counted C U up = is_message_with plain_text_trimmed C U up.
Proof.
  unfold counted, is_message_with, message_event.
  destruct up as [ctx|ctx|ctx created|now ctx]; try done.
  destruct (new_chat_members (message ctx)); [|done].
  destruct (from ctx) as [u|]; [|done].
  destruct (Z.eqb_spec (User.id u) 0); [done|].
  destruct (Z.eqb_spec (chat_id ctx) C), (Z.eqb_spec (User.id u) U);
    simpl; rewrite ?andb_false_r; try done.
  rewrite !andb_true_r. unfold counts_message, plain_text_trimmed.
  by destruct (text (message ctx)) as [[|c s]|].
Qed.

Lemma count_updates_ext ok ok' ups :
  (∀ up, ok up = ok' up) → count_updates ok ups = count_updates ok' ups.
Proof. intros H. induction ups as [|up ups IH]; simpl; [done|]. by rewrite H, IH. Qed.

(** C6 (amended).  Along any run, the messages counter of user [U] in chat
    [C] grows by the number of [U]'s message events in [C] whose text is
    not empty and, once [trim] has stripped the white space around it, does
    not start with ["/"]; updates of other users or chats, commands, joins
    and empty texts add nothing.  From the empty database the counter is
    that number. *)
Theorem messages_counts_plain_texts ups db C U :
  messages (stats_of (run ups db) (C, U))
    = messages (stats_of db (C, U))
      + count_updates (is_message_with plain_text_trimmed C U) ups
  ∧ messages (stats_of (run ups empty_db) (C, U))
    = count_updates (is_message_with plain_text_trimmed C U) ups.
Proof.
  rewrite <- (count_updates_ext (counted C U))
    by (intros up; by apply counted_plain_text_trimmed).
  split; [apply run_messages|]. by rewrite run_messages.
Qed.

Lemma messages_counts_plain_texts_witness :
  messages (stats_of (run sample_run empty_db) (1, 2)) = 2.
Proof.
  rewrite (proj2 (messages_counts_plain_texts sample_run empty_db 1 2)).
  reflexivity.
Defined.

(** C6 in the wording of the specification fails: the text [" /x"] is not
    empty and does not start with ["/"], so it is one of the [k] texts the
    specification counts, and the handler does not count it. *)
Lemma messages_counts_plain_texts_counterexample :
  count_updates (is_message_with plain_text 1 2) spaced_command = 1
  ∧ messages (stats_of (run spaced_command empty_db) (1, 2)) = 0.
Proof. split; vm_compute; reflexivity. Qed.

(** ** Join records *)

Lemma grant_karma_frame chatId u target now db :
  invite_links (flow_db (grant_karma chatId u target now db)) = invite_links db
  ∧ invite_joins (flow_db (grant_karma chatId u target now db)) = invite_joins db.
Proof.
  unfold grant_karma.
  destruct (User.id target =? 0); [done|].
  destruct (User.id target =? User.id u); [done|]. cbv zeta.
  match goal with |- context [if ?b then _ else _] => destruct b end; [done|].
  cbn [flow_db set_stats invite_links invite_joins].
  destruct (upsertUser_frame chatId (Some target)
    (set_karma_cooldowns <[(chatId, User.id u):=now 0%nat]> db)) as (_ & -> & ->).
  done.
Qed.

Lemma karma_block_frame chatId u m now db :
  invite_links (flow_db (karma_block chatId u m now db)) = invite_links db
  ∧ invite_joins (flow_db (karma_block chatId u m now db)) = invite_joins db.
Proof.
  unfold karma_block. destruct (karma_trigger m); [|done].
  destruct (reply_to_from m); [apply grant_karma_frame | done].
Qed.

Lemma track_join_joins chatId link t joinUser db k r :
  invite_joins db !! k = Some r →
  invite_joins (track_join chatId link t joinUser db) !! k = Some r.
Proof.
  intros Hr.
  destruct (upsertUser_frame chatId (Some joinUser) db) as (_ & _ & Hj).
  unfold track_join.
  set (inviterId := if truthy_str link then _ else _).
  destruct inviterId; cbn [set_stats set_invite_joins invite_joins];
    rewrite Hj; by apply insert_or_ignore_kept.
Qed.

Lemma track_joins_joins chatId link now joined : ∀ n db k r,
  invite_joins db !! k = Some r →
  invite_joins (track_joins chatId link now n joined db) !! k = Some r.
Proof.
  induction joined as [|j rest IH]; intros n db k r Hr; simpl; [done|].
  apply IH. by apply track_join_joins.
Qed.

Lemma select_candidates_elem (chatId : Z) (m : gmap (Z * Z) JoinRow) (c : Candidate) :
  c ∈ select_candidates chatId m →
  ∃ r, m !! (chatId, c_joined_user_id c) = Some r
       ∧ confirmed r = 0
       ∧ inviter_id r = Some (c_inviter_id c)
       ∧ joined_at r = c_joined_at c.
Proof.
  unfold select_candidates. intros Hc.
  apply (subseteq_take 5) in Hc.
  apply list_elem_of_omap in Hc as ([[ch j] r] & Hin & Hsel).
  apply elem_of_map_to_list in Hin.
  destruct (Z.eqb_spec ch chatId) as [->|]; [|done].
  destruct (Z.eqb_spec (confirmed r) 0) as [Hz|]; [|done]. simpl in Hsel.
  destruct (inviter_id r) as [i|] eqn:Ei; [|done].
  injection Hsel as <-. simpl. by exists r.
Qed.

Lemma select_candidates_length (chatId : Z) (m : gmap (Z * Z) JoinRow) :
  (length (select_candidates chatId m) ≤ 5)%nat.
Proof. unfold select_candidates. rewrite length_take. lia. Qed.

Lemma msgCount_stats_of db k :
  match stats db !! k with
  | Some s => messages s
  | None => 0
  end = messages (stats_of db k).
Proof. unfold stats_of. by destruct (stats db !! k). Qed.

Lemma confirm_candidate_skip chatId t c db :
  t - c_joined_at c < INVITE_CONFIRM_AFTER_SECONDS
  ∨ messages (stats_of db (chatId, c_joined_user_id c))
      < INVITE_CONFIRM_MIN_MESSAGES →
  confirm_candidate chatId t c db = db.
Proof.
  unfold confirm_candidate. intros Hskip.
  destruct (Z.ltb_spec (t - c_joined_at c) INVITE_CONFIRM_AFTER_SECONDS);
    [done|]. cbv zeta.
  destruct Hskip as [?|Hm]; [lia|].
  rewrite msgCount_stats_of. apply Z.ltb_lt in Hm. by rewrite Hm.
Qed.

(** What one pass of the loop does to a join row: nothing, or the row is
    the one of a candidate whose two conditions held when it was looked at. *)
Lemma confirm_loop_joins chatId now cs : ∀ n db k r,
  invite_joins db !! k = Some r →
  invite_joins (confirm_loop chatId now n cs db) !! k = Some r
  ∨ (invite_joins (confirm_loop chatId now n cs db) !! k = Some (set_confirmed r)
     ∧ ∃ c i,
         cs !! i = Some c ∧ k = (chatId, c_joined_user_id c)
         ∧ INVITE_CONFIRM_AFTER_SECONDS ≤ now (n + i)%nat - c_joined_at c
         ∧ INVITE_CONFIRM_MIN_MESSAGES
             ≤ messages (stats_of (confirm_loop chatId now n cs db) k)).
Proof.
  induction cs as [|c rest IH]; intros n db k r Hr; simpl; [by left|].
  assert (∀ d' r',
    invite_joins d' !! k = Some r' →
    invite_joins (confirm_loop chatId now (S n) rest d') !! k = Some r'
    ∨ (invite_joins (confirm_loop chatId now (S n) rest d') !! k
         = Some (set_confirmed r')
       ∧ ∃ c0 i,
           (c :: rest) !! i = Some c0 ∧ k = (chatId, c_joined_user_id c0)
           ∧ INVITE_CONFIRM_AFTER_SECONDS ≤ now (n + i)%nat - c_joined_at c0
           ∧ INVITE_CONFIRM_MIN_MESSAGES
               ≤ messages (stats_of (confirm_loop chatId now (S n) rest d') k)))
    as IH'.
  { intros d' r' Hr'. destruct (IH (S n) d' k r' Hr')
      as [?|(? & c0 & i & Hi & Hk & Ht & Hm)]; [by left|right].
    split; [done|]. exists c0, (S i). rewrite Nat.add_succ_r. done. }
  destruct (Z.ltb_spec (now n - c_joined_at c) INVITE_CONFIRM_AFTER_SECONDS)
    as [Hearly|Hlate].
  { rewrite confirm_candidate_skip by by left. by apply IH'. }
  destruct (Z.ltb_spec (messages (stats_of db (chatId, c_joined_user_id c)))
              INVITE_CONFIRM_MIN_MESSAGES) as [Hfew|Henough].
  { rewrite confirm_candidate_skip by by right. by apply IH'. }
  set (db1 := confirm_candidate chatId (now n) c db).
  assert (invite_joins db1 !! k
          = if decide ((chatId, c_joined_user_id c) = k)
            then Some (set_confirmed r) else Some r) as H1.
  { unfold db1, confirm_candidate.
    destruct (Z.ltb_spec (now n - c_joined_at c) INVITE_CONFIRM_AFTER_SECONDS);
      [lia|]. cbv zeta. rewrite msgCount_stats_of.
    destruct (Z.ltb_spec (messages (stats_of db (chatId, c_joined_user_id c)))
                INVITE_CONFIRM_MIN_MESSAGES); [lia|].
    cbn [set_stats set_invite_joins invite_joins].
    rewrite lookup_alter. case_decide as Hk; [|done].
    rewrite Hk, Hr. done. }
  case_decide as Hk; [|by apply IH'].
  right.
  assert (messages (stats_of (confirm_loop chatId now (S n) rest db1) k)
          = messages (stats_of db k)) as Hmsg.
  { transitivity (messages (stats_of db1 k)); symmetry.
    - apply (confirm_loop_rel messages_same); eauto.
    - apply (confirm_candidate_rel messages_same); eauto. }
  split.
  - destruct (IH (S n) db1 k _ H1) as [?|[? _]]; done.
  - exists c, 0%nat. rewrite Nat.add_0_r, Hmsg, <- Hk. done.
Qed.

Lemma confirmation_sweep_joins chatId now n db k r :
  invite_joins db !! k = Some r →
  invite_joins (confirmation_sweep chatId now n db) !! k = Some r
  ∨ (confirmed r = 0
     ∧ invite_joins (confirmation_sweep chatId now n db) !! k
         = Some (set_confirmed r)
     ∧ k.1 = chatId
     ∧ ∃ i, INVITE_CONFIRM_AFTER_SECONDS ≤ now i - joined_at r
            ∧ INVITE_CONFIRM_MIN_MESSAGES
                ≤ messages (stats_of (confirmation_sweep chatId now n db) k)).
Proof.
  intros Hr. unfold confirmation_sweep.
  destruct (confirm_loop_joins chatId now
              (select_candidates chatId (invite_joins db)) n db k r Hr)
    as [?|(Hc & c & i & Hi & -> & Ht & Hm)]; [by left|right].
  apply list_elem_of_lookup_2, select_candidates_elem in Hi
    as (r' & Hr' & Hz & _ & Hat).
  rewrite Hr in Hr'. injection Hr' as <-.
  repeat split; [done|done|]. exists (n + i)%nat. by rewrite Hat.
Qed.

Lemma on_message_joins now ctx db k r :
  invite_joins db !! k = Some r →
  invite_joins (on_message now ctx db) !! k = Some r
  ∨ (confirmed r = 0
     ∧ invite_joins (on_message now ctx db) !! k = Some (set_confirmed r)
     ∧ k.1 = chat_id ctx
     ∧ ∃ i, INVITE_CONFIRM_AFTER_SECONDS ≤ now i - joined_at r
            ∧ INVITE_CONFIRM_MIN_MESSAGES
                ≤ messages (stats_of (on_message now ctx db) k)).
Proof.
  intros Hr. unfold on_message. cbv zeta.
  destruct (new_chat_members (message ctx)) as [|j js] eqn:Ej.
  2:{ left. by apply track_joins_joins. }
  destruct (from ctx) as [u|]; [|by left].
  destruct (User.id u =? 0); [by left|].
  set (db2 := count_message (chat_id ctx) u (message ctx)
                (upsertUser (chat_id ctx) (Some u) db)).
  assert (invite_joins db2 = invite_joins db) as H2.
  { unfold db2.
    destruct (count_message_frame (chat_id ctx) u (message ctx)
                (upsertUser (chat_id ctx) (Some u) db)) as (_ & _ & _ & ->).
    apply upsertUser_frame. }
  destruct (karma_block_frame (chat_id ctx) u (message ctx) now db2) as [_ H3].
  destruct (karma_block _ _ _ _ _) as [db3|n db3]; simpl in H3.
  - left. by rewrite H3, H2.
  - apply confirmation_sweep_joins. by rewrite H3, H2.
Qed.

Lemma handle_joins up db k r :
  invite_joins db !! k = Some r →
  invite_joins (handle up db) !! k = Some r
  ∨ (confirmed r = 0
     ∧ invite_joins (handle up db) !! k = Some (set_confirmed r)
     ∧ ∃ now ctx i,
         up = Msg now ctx ∧ k.1 = chat_id ctx
         ∧ INVITE_CONFIRM_AFTER_SECONDS ≤ now i - joined_at r
         ∧ INVITE_CONFIRM_MIN_MESSAGES ≤ messages (stats_of (handle up db) k)).
Proof.
  intros Hr. destruct up as [ctx|ctx|ctx created|now ctx]; simpl.
  - left. by destruct (me_frame ctx db) as (_ & _ & ->).
  - by left.
  - left. by destruct (myinvite_frame ctx created db) as (_ & ->).
  - destruct (on_message_joins now ctx db k r Hr)
      as [?|(Hz & Hc & Hk & i & Ht & Hm)]; [by left|right].
    repeat split; [done|done|]. by exists now, ctx, i.
Qed.

Lemma run_joins_confirmed ups : ∀ db k r,
  invite_joins db !! k = Some r → confirmed r ≠ 0 →
  invite_joins (run ups db) !! k = Some r.
Proof.
  unfold run. induction ups as [|up ups IH]; intros db k r Hr Hc; simpl; [done|].
  apply IH; [|done].
  by destruct (handle_joins up db k r Hr) as [?|[? _]].
Qed.

(** C2.  Whatever update is handled, a join row either stays exactly as it
    is, or it was pending and only its flag changes, to 1; the latter only
    in a run of the message handler for the row's chat, in which some read
    of the clock was at least 24h after [joined_at] and the joined user's
    messages counter, which the sweep does not change, is at least 3.
    A row whose flag is set is frozen along every run, so the flag is set
    at most once and never reverts.  A candidate for which either condition
    fails leaves the whole database unchanged. *)
Theorem invite_join_confirmation up db k r :
  invite_joins db !! k = Some r →
  (invite_joins (handle up db) !! k = Some r
   ∨ (confirmed r = 0
      ∧ invite_joins (handle up db) !! k = Some (set_confirmed r)
      ∧ ∃ now ctx i,
          up = Msg now ctx ∧ k.1 = chat_id ctx
          ∧ INVITE_CONFIRM_AFTER_SECONDS ≤ now i - joined_at r
          ∧ INVITE_CONFIRM_MIN_MESSAGES
              ≤ messages (stats_of (handle up db) k)))
  ∧ (confirmed r ≠ 0 → ∀ ups, invite_joins (run ups db) !! k = Some r)
  ∧ (∀ chatId t c d,
       t - c_joined_at c < INVITE_CONFIRM_AFTER_SECONDS
       ∨ messages (stats_of d (chatId, c_joined_user_id c))
           < INVITE_CONFIRM_MIN_MESSAGES →
       confirm_candidate chatId t c d = d).
Proof.
  intros Hr. split; [by apply handle_joins|]. split.
  - intros Hc ups. by apply run_joins_confirmed.
  - intros chatId t c d. apply confirm_candidate_skip.
Qed.

(** ** Invite counters *)

Lemma invites_ok_refl r : invites_ok r r.
Proof. unfold invites_ok. lia. Qed.

Lemma invites_ok_trans a b c : invites_ok a b → invites_ok b c → invites_ok a c.
Proof. unfold invites_ok. lia. Qed.

Lemma invites_ok_inc_messages r : invites_ok r (inc_messages r).
Proof. unfold invites_ok. simpl. lia. Qed.

Lemma invites_ok_inc_karma r : invites_ok r (inc_karma r).
Proof. unfold invites_ok. simpl. lia. Qed.

Lemma invites_ok_inc_karma_given r : invites_ok r (inc_karma_given r).
Proof. unfold invites_ok. simpl. lia. Qed.

Lemma invites_ok_inc_invites_pending r : invites_ok r (inc_invites_pending r).
Proof. unfold invites_ok. simpl. lia. Qed.

Lemma invites_ok_shift_invite r : invites_ok r (shift_invite r).
Proof.
  unfold invites_ok. simpl.
  destruct (Z.ltb_spec 0 (invites_pending r)); lia.
Qed.

Lemma shift_invite_saturates r :
  invites_pending (shift_invite r) = Z.max 0 (invites_pending r - 1).
Proof. simpl. destruct (Z.ltb_spec 0 (invites_pending r)); lia. Qed.

Lemma run_invites_ok ups db : stats_rel invites_ok db (run ups db).
Proof.
  apply run_rel;
    auto using invites_ok_refl, invites_ok_inc_messages, invites_ok_inc_karma,
      invites_ok_inc_karma_given, invites_ok_inc_invites_pending,
      invites_ok_shift_invite.
  intros a b c. apply invites_ok_trans.
Qed.

(** C8.  Along any run, a stats row that exists is still there afterwards,
    the sum of its invites_pending and invites_confirmed has not decreased,
    and its invites_pending, if it was not negative, still is not.  From
    the empty database no row ever has a negative invites_pending.  The
    confirmation statement itself replaces invites_pending by
    [max 0 (invites_pending - 1)]. *)
Theorem invites_pending_floor ups db k r :
  stats db !! k = Some r →
  (∃ r', stats (run ups db) !! k = Some r'
         ∧ invites_pending r + invites_confirmed r
             ≤ invites_pending r' + invites_confirmed r'
         ∧ (0 ≤ invites_pending r → 0 ≤ invites_pending r'))
  ∧ (∀ ups0 k0 r0,
       stats (run ups0 empty_db) !! k0 = Some r0 → 0 ≤ invites_pending r0)
  ∧ (∀ s, invites_pending (shift_invite s) = Z.max 0 (invites_pending s - 1)).
Proof.
  intros Hr. split; [|split].
  - destruct (run_invites_ok ups db k) as [[Hsum Hpos] Hsome].
    destruct Hsome as [r' Hr']; [by eauto|].
    rewrite (stats_of_Some _ _ _ Hr), (stats_of_Some _ _ _ Hr') in Hsum, Hpos.
    by exists r'.
  - intros ups0 k0 r0 Hr0.
    destruct (run_invites_ok ups0 empty_db k0) as [[_ Hpos] _].
    rewrite (stats_of_Some _ _ _ Hr0) in Hpos. by apply Hpos.
  - apply shift_invite_saturates.
Qed.

(** ** Invite links *)

Lemma upsertUser_idem chatId u db :
  upsertUser chatId u (upsertUser chatId u db) = upsertUser chatId u db.
Proof.
  unfold upsertUser. destruct u as [u|]; [|done].
  destruct (User.id u =? 0) eqn:E; rewrite ?E; [done|].
  destruct db; unfold set_stats, set_users; simpl. f_equal.
  - apply insert_insert_eq.
  - apply insert_or_ignore_present, insert_or_ignore_is_Some.
Qed.

Lemma upsertUser_set_invite_links chatId u f db :
  upsertUser chatId u (set_invite_links f db)
    = set_invite_links f (upsertUser chatId u db).
Proof.
  unfold upsertUser. destruct u as [u|]; [|done].
  by destruct (User.id u =? 0).
Qed.

Lemma on_message_links now ctx db :
  invite_links (on_message now ctx db) = invite_links db.
Proof.
  unfold on_message. cbv zeta.
  destruct (new_chat_members (message ctx)); [|apply track_joins_frame].
  destruct (from ctx) as [u|]; [|done].
  destruct (User.id u =? 0); [done|].
  set (db2 := count_message (chat_id ctx) u (message ctx)
                (upsertUser (chat_id ctx) (Some u) db)).
  assert (invite_links db2 = invite_links db) as H2.
  { unfold db2.
    destruct (count_message_frame (chat_id ctx) u (message ctx)
                (upsertUser (chat_id ctx) (Some u) db)) as (_ & _ & -> & _).
    apply upsertUser_frame. }
  destruct (karma_block_frame (chat_id ctx) u (message ctx) now db2) as [H3 _].
  destruct (karma_block _ _ _ _ _) as [db3|n db3]; simpl in H3.
  - by rewrite H3.
  - unfold confirmation_sweep.
    destruct (confirm_loop_frame (chat_id ctx) now
      (select_candidates (chat_id ctx) (invite_joins db3)) n db3) as (_ & _ & ->).
    by rewrite H3.
Qed.

Lemma myinvite_links ctx created db k tok :
  invite_links db !! k = Some tok →
  invite_links (fst (myinvite ctx created db)) !! k = Some tok.
Proof.
  intros Hk.
  destruct (upsertUser_frame (chat_id ctx) (from ctx) db) as (_ & Hl & _).
  unfold myinvite. cbv zeta.
  destruct (from ctx) as [u|]; cbn [fst]; [|by rewrite Hl].
  destruct (truthy_str _); cbn [fst]; [by rewrite Hl|].
  destruct created as [link|]; cbn [fst]; [|by rewrite Hl].
  unfold insert_strict. rewrite Hl.
  destruct (invite_links db !! (chat_id ctx, User.id u)) eqn:E; cbn [fst].
  - by rewrite Hl.
  - cbn [set_invite_links invite_links]. rewrite lookup_insert_ne; [done|].
    intros <-. congruence.
Qed.

Lemma handle_links up db k tok :
  invite_links db !! k = Some tok →
  invite_links (handle up db) !! k = Some tok.
Proof.
  intros Hk. destruct up as [ctx|ctx|ctx created|now ctx]; simpl.
  - by destruct (me_frame ctx db) as (_ & -> & _).
  - done.
  - by apply myinvite_links.
  - by rewrite on_message_links.
Qed.

Lemma run_links ups : ∀ db k tok,
  invite_links db !! k = Some tok →
  invite_links (run ups db) !! k = Some tok.
Proof.
  unfold run. induction ups as [|up ups IH]; intros db k tok Hk; simpl; [done|].
  by apply IH, handle_links.
Qed.

(** C9.  When [/myinvite] has answered a user with a link (a string that
    is not empty, as every link of the platform is), a second [/myinvite]
    of that user answers with the same link, does not call
    [createChatInviteLink] and leaves the database as it is.  Along any
    run a stored link stays the link of its key: the table holds one row
    per (chat, inviter), and no statement updates or deletes one. *)
Theorem invite_link_reused ctx created created2 db link called :
  snd (myinvite ctx created db) = Replied link called →
  link ≠ [] →
  let db1 := fst (myinvite ctx created db) in
  myinvite ctx created2 db1 = (db1, Replied link false)
  ∧ (∀ u, from ctx = Some u →
          invite_links db1 !! (chat_id ctx, User.id u) = Some link)
  ∧ ∀ ups k tok,
      invite_links db1 !! k = Some tok →
      invite_links (run ups db1) !! k = Some tok.
Proof.
  intros Hreply Hne db1.
  assert (∀ u, from ctx = Some u →
            invite_links db1 !! (chat_id ctx, User.id u) = Some link
            ∧ upsertUser (chat_id ctx) (from ctx) db1 = db1) as Hstored.
  { intros u Eu. revert Hreply. unfold db1, myinvite. cbv zeta. rewrite Eu.
    destruct (invite_links (upsertUser (chat_id ctx) (Some u) db)
                !! (chat_id ctx, User.id u)) as [old|] eqn:Eold.
    - destruct old as [|c old]; cbn [truthy_str].
      + destruct created as [new|]; cbn [snd]; [|done].
        unfold insert_strict. by rewrite Eold.
      + cbn [snd fst or_empty]. intros [= <- _].
        split; [done | apply upsertUser_idem].
    - cbn [truthy_str]. destruct created as [new|]; cbn [snd]; [|done].
      unfold insert_strict. rewrite Eold. cbn [snd fst]. intros [= <- _].
      split.
      + cbn [set_invite_links invite_links]. apply lookup_insert_eq.
      + by rewrite upsertUser_set_invite_links, upsertUser_idem. }
  split; [|split].
  - destruct (from ctx) as [u|] eqn:Eu.
    + destruct (Hstored u eq_refl) as [Hl Hup].
      unfold myinvite. cbv zeta. rewrite Eu, Hup, Hl.
      destruct link; [done|]. done.
    + revert Hreply. unfold myinvite. cbv zeta. by rewrite Eu.
  - intros u Eu. by apply Hstored.
  - intros ups k tok. apply run_links.
Qed.

Lemma invite_link_reused_witness :
  myinvite (myinvite_of 1 3) None
      (fst (myinvite (myinvite_of 1 3) (Some link_L) empty_db))
    = (fst (myinvite (myinvite_of 1 3) (Some link_L) empty_db),
       Replied link_L false).
Proof.
  apply (invite_link_reused (myinvite_of 1 3) (Some link_L) None empty_db
           link_L true); [reflexivity | discriminate].
Defined.

(** ** A chat with one invited member *)

Example active_db_join : invite_joins active_db !! (1, 2) = Some pending_join.
Proof. vm_compute. reflexivity. Qed.

Example active_db_messages : messages (stats_of active_db (1, 2)) = 3.
Proof. vm_compute. reflexivity. Qed.

Example active_db_pending :
  stats active_db !! (1, 3) = Some (inc_invites_pending default_stats).
Proof. vm_compute. reflexivity. Qed.

(** A plain text 100000 seconds after the join confirms it. *)
Example late_text_confirms :
  invite_joins (handle (text_at 100000 5 hi) active_db) !! (1, 2)
    = Some (set_confirmed pending_join)
  ∧ stats (handle (text_at 100000 5 hi) active_db) !! (1, 3)
    = Some (shift_invite (inc_invites_pending default_stats)).
Proof. split; vm_compute; reflexivity. Qed.

Lemma invite_join_confirmation_witness :
  invite_joins
    (run [text_at 200000 2 hi; join_via 200001]
       (handle (text_at 100000 5 hi) active_db)) !! (1, 2)
    = Some (set_confirmed pending_join).
Proof.
  apply (invite_join_confirmation (text_at 100000 5 hi)
           (handle (text_at 100000 5 hi) active_db) (1, 2)
           (set_confirmed pending_join)).
  - vm_compute. reflexivity.
  - simpl. lia.
Defined.

Lemma invites_pending_floor_witness :
  ∃ r', stats (run [text_at 100000 5 hi] active_db) !! (1, 3) = Some r'
        ∧ invites_pending (inc_invites_pending default_stats)
          + invites_confirmed (inc_invites_pending default_stats)
            ≤ invites_pending r' + invites_confirmed r'
        ∧ (0 ≤ invites_pending (inc_invites_pending default_stats)
           → 0 ≤ invites_pending r').
Proof.
  apply (invites_pending_floor [text_at 100000 5 hi] active_db (1, 3)
           (inc_invites_pending default_stats)).
  vm_compute. reflexivity.
Defined.

(** C3.  The specification has the confirmation sweep run on every message
    that is not a join, rejected grants included; the handler does not.
    With the join of user 2 ready to be confirmed, user 5 replies ["+"] to
    a message of their own: the handler returns from inside the karma block
    and the join stays pending, although the sweep, run on the state the
    handler stopped in, confirms it, as does the handler itself on a plain
    text.  The same happens when the grant is turned down by the cooldown:
    user 5 grants at 86395, five seconds before the join is due, and
    replies ["+"] again at 86405. *)
Theorem sweep_skipped_on_rejected_grant :
  (invite_joins (handle (reply_at 100000 5 plus_sign 5) active_db) !! (1, 2)
     = Some pending_join
   ∧ invite_joins
       (confirmation_sweep 1 (λ _, 100000) 0
          (handle (reply_at 100000 5 plus_sign 5) active_db)) !! (1, 2)
     = Some (set_confirmed pending_join)
   ∧ invite_joins (handle (text_at 100000 5 hi) active_db) !! (1, 2)
     = Some (set_confirmed pending_join))
  ∧ (invite_joins
       (run [reply_at 86395 5 plus_sign 6; reply_at 86405 5 plus_sign 6]
          active_db) !! (1, 2)
     = Some pending_join
     ∧ invite_joins
         (confirmation_sweep 1 (λ _, 86405) 0
            (run [reply_at 86395 5 plus_sign 6; reply_at 86405 5 plus_sign 6]
               active_db)) !! (1, 2)
       = Some (set_confirmed pending_join)
     ∧ invite_joins
         (run [reply_at 86395 5 plus_sign 6; text_at 86405 5 hi]
            active_db) !! (1, 2)
       = Some (set_confirmed pending_join)).
Proof. repeat split; vm_compute; reflexivity. Qed.

(** A second notification for a tracked user leaves the join table as it
    is: the first row wins. *)
Lemma track_join_tracked chatId link t joinUser db :
  is_Some (invite_joins db !! (chatId, User.id joinUser)) →
  invite_joins (track_join chatId link t joinUser db) = invite_joins db.
Proof.
  intros Hrow.
  destruct (upsertUser_frame chatId (Some joinUser) db) as (_ & _ & Hj).
  unfold track_join.
  set (inviterId := if truthy_str link then _ else _).
  destruct inviterId; cbn [set_stats set_invite_joins invite_joins];
    rewrite Hj; by apply insert_or_ignore_present.
Qed.

(** C4.  The specification has a second join notification for a tracked
    user change nothing, the inviter's counters included; the handler
    counts it again.  User 2 joined through the link of user 3 at time 0.
    A second notification of that join, at time 500, leaves the join table
    as it is, and adds one more to the invites_pending of user 3. *)
Theorem duplicate_join_recounted :
  invite_joins joined_db !! (1, 2) = Some pending_join
  ∧ invite_joins (handle (join_via 500) joined_db) = invite_joins joined_db
  ∧ stats joined_db !! (1, 3) = Some (inc_invites_pending default_stats)
  ∧ stats (handle (join_via 500) joined_db) !! (1, 3)
    = Some (inc_invites_pending (inc_invites_pending default_stats)).
Proof. repeat split; vm_compute; reflexivity. Qed.

(** * Further properties *)

(** ** Walking through the handlers

    A relation between the database before and after a statement that is
    reflexive, transitive and holds for each write the handlers make in
    chat [C] holds for every handler run in chat [C]. *)

Section Walk.
Variable C : Z.
Variable R : DB → DB → Prop.
Hypothesis R_refl : ∀ db, R db db.
Hypothesis R_trans : ∀ a b c, R a b → R b c → R a c.
Hypothesis R_upsert : ∀ u db, R db (upsertUser C u db).
Hypothesis R_track : ∀ link t j db, R db (track_join C link t j db).
Hypothesis R_stats : ∀ f i db, R db (set_stats (alter f (C, i)) db).
Hypothesis R_cooldown :
  ∀ i t db, R db (set_karma_cooldowns (insert (C, i) t) db).
Hypothesis R_confirm :
  ∀ j db, R db (set_invite_joins (alter set_confirmed (C, j)) db).
Hypothesis R_link :
  ∀ i l db, invite_links db !! (C, i) = None →
    R db (set_invite_links (λ _, <[(C, i) := l]> (invite_links db)) db).

Ltac step lem := eapply R_trans; [|apply lem].

Lemma walk_track_joins link now joined : ∀ n db,
  R db (track_joins C link now n joined db).
Proof using R_refl R_trans R_track.
  induction joined as [|j rest IH]; intros n db; simpl; [apply R_refl|].
  eapply R_trans; [apply R_track | apply IH].
Qed.

Lemma walk_count_message u m db : R db (count_message C u m db).
Proof using R_refl R_stats.
  unfold count_message. destruct (counts_message m); [apply R_stats | apply R_refl].
Qed.

Lemma walk_grant_karma u target now db :
  R db (flow_db (grant_karma C u target now db)).
Proof using R_refl R_trans R_upsert R_stats R_cooldown.
  unfold grant_karma.
  destruct (User.id target =? 0); [apply R_refl|].
  destruct (User.id target =? User.id u); [apply R_refl|]. cbv zeta.
  match goal with |- context [if ?b then _ else _] => destruct b end;
    [apply R_refl|]. cbn [flow_db].
  step R_stats. step R_stats. step R_upsert. apply R_cooldown.
Qed.

Lemma walk_karma_block u m now db :
  R db (flow_db (karma_block C u m now db)).
Proof using R_refl R_trans R_upsert R_stats R_cooldown.
  unfold karma_block. destruct (karma_trigger m); [|apply R_refl].
  destruct (reply_to_from m); [apply walk_grant_karma | apply R_refl].
Qed.

Lemma walk_confirm_candidate t c db : R db (confirm_candidate C t c db).
Proof using R_refl R_trans R_stats R_confirm.
  unfold confirm_candidate.
  destruct (_ <? INVITE_CONFIRM_AFTER_SECONDS); [apply R_refl|]. cbv zeta.
  destruct (_ <? INVITE_CONFIRM_MIN_MESSAGES); [apply R_refl|].
  step R_stats. apply R_confirm.
Qed.

Lemma walk_confirm_loop now cs : ∀ n db, R db (confirm_loop C now n cs db).
Proof using R_refl R_trans R_stats R_confirm.
  induction cs as [|c rest IH]; intros n db; simpl; [apply R_refl|].
  eapply R_trans; [apply walk_confirm_candidate | apply IH].
Qed.

Lemma walk_on_message now ctx db :
  chat_id ctx = C → R db (on_message now ctx db).
Proof using All.
  intros EC. unfold on_message. cbv zeta. rewrite EC.
  destruct (new_chat_members (message ctx)); [|apply walk_track_joins].
  destruct (from ctx) as [u|]; [|apply R_refl].
  destruct (User.id u =? 0); [apply R_refl|].
  set (db2 := count_message C u (message ctx) (upsertUser C (Some u) db)).
  assert (R db db2) as H2.
  { unfold db2. step walk_count_message. apply R_upsert. }
  pose proof (walk_karma_block u (message ctx) now db2) as H3.
  destruct (karma_block _ _ _ _ _) as [db3|n db3]; cbn [flow_db] in H3.
  - by eapply R_trans.
  - eapply R_trans; [exact H2|]. eapply R_trans; [exact H3|].
    apply walk_confirm_loop.
Qed.

Lemma walk_myinvite ctx created db :
  chat_id ctx = C → R db (fst (myinvite ctx created db)).
Proof using R_refl R_trans R_upsert R_link.
  intros EC. pose proof (R_upsert (from ctx) db) as Hu.
  unfold myinvite. cbv zeta. rewrite EC.
  destruct (from ctx) as [u|]; [|exact Hu].
  destruct (truthy_str _); [exact Hu|].
  destruct created as [link|]; [|exact Hu].
  unfold insert_strict.
  destruct (invite_links (upsertUser C (Some u) db) !! (C, User.id u)) eqn:E;
    [exact Hu|]. cbn [fst].
  eapply R_trans; [exact Hu|]. by apply R_link.
Qed.

Lemma walk_handle up db : chat_of up = C → R db (handle up db).
Proof using All.
  destruct up as [ctx|ctx|ctx created|now ctx]; simpl; intros EC.
  - pose proof (R_upsert (from ctx) db) as Hu.
    unfold me. cbv zeta. rewrite EC. by destruct (from ctx).
  - apply R_refl.
  - by apply walk_myinvite.
  - by apply walk_on_message.
Qed.
End Walk.

(** [track_join] from its own statements. *)
Section WalkJoin.
Variable C : Z.
Variable R : DB → DB → Prop.
Hypothesis R_trans : ∀ a b c, R a b → R b c → R a c.
Hypothesis R_upsert : ∀ u db, R db (upsertUser C u db).
Hypothesis R_stats : ∀ f i db, R db (set_stats (alter f (C, i)) db).
Hypothesis R_ensure :
  ∀ i db, R db (set_stats (insert_or_ignore (C, i) default_stats) db).
Hypothesis R_join :
  ∀ j row db, R db (set_invite_joins (insert_or_ignore (C, j) row) db).

Lemma walk_track_join link t joinUser db :
  R db (track_join C link t joinUser db).
Proof using All.
  unfold track_join.
  set (inviterId := if truthy_str link then _ else _).
  destruct inviterId as [i|]; cbv zeta.
  - eapply R_trans; [|apply R_stats]. eapply R_trans; [|apply R_ensure].
    eapply R_trans; [|apply R_join]. apply R_upsert.
  - eapply R_trans; [|apply R_join]. apply R_upsert.
Qed.
End WalkJoin.

(** ** Writes stay in the chat of the update, and no row goes *)

Section CellOk.
Context {V : Type}.
Implicit Types (m : gmap (Z * Z) V) (k : Z * Z) (o : option V).

Lemma cell_ok_refl C k o : cell_ok C k o o.
Proof. by split. Qed.

Lemma cell_ok_trans C k o1 o2 o3 :
  cell_ok C k o1 o2 → cell_ok C k o2 o3 → cell_ok C k o1 o3.
Proof. intros [Ha Hb] [Hc Hd]. split; [intros ?; by rewrite Hc, Ha | auto]. Qed.

Lemma cell_ok_insert C i v m k : cell_ok C k (m !! k) (<[(C, i) := v]> m !! k).
Proof.
  split.
  - intros Hk. rewrite lookup_insert_ne; [done|]. by intros <-.
  - intros Hs. rewrite lookup_insert. by case_decide.
Qed.

Lemma cell_ok_insert_or_ignore C i v m k :
  cell_ok C k (m !! k) (insert_or_ignore (C, i) v m !! k).
Proof.
  unfold insert_or_ignore. destruct (m !! (C, i));
    [apply cell_ok_refl | apply cell_ok_insert].
Qed.

Lemma cell_ok_alter C i f m k : cell_ok C k (m !! k) (alter f (C, i) m !! k).
Proof.
  split.
  - intros Hk. rewrite lookup_alter_ne; [done|]. by intros <-.
  - by rewrite lookup_alter_is_Some.
Qed.
End CellOk.

Lemma confined_refl C db : confined C db db.
Proof. intros k. split_and!; apply cell_ok_refl. Qed.

Lemma confined_trans C db1 db2 db3 :
  confined C db1 db2 → confined C db2 db3 → confined C db1 db3.
Proof.
  intros H12 H23 k.
  destruct (H12 k) as (? & ? & ? & ? & ?), (H23 k) as (? & ? & ? & ? & ?).
  split_and!; by eapply cell_ok_trans.
Qed.

Lemma confined_set_users C f db :
  (∀ k, cell_ok C k (users db !! k) (f (users db) !! k)) →
  confined C db (set_users f db).
Proof. intros H k. split_and!; try apply cell_ok_refl; apply H. Qed.

Lemma confined_set_stats C f db :
  (∀ k, cell_ok C k (stats db !! k) (f (stats db) !! k)) →
  confined C db (set_stats f db).
Proof. intros H k. split_and!; try apply cell_ok_refl; apply H. Qed.

Lemma confined_set_karma_cooldowns C f db :
  (∀ k, cell_ok C k (karma_cooldowns db !! k) (f (karma_cooldowns db) !! k)) →
  confined C db (set_karma_cooldowns f db).
Proof. intros H k. split_and!; try apply cell_ok_refl; apply H. Qed.

Lemma confined_set_invite_links C f db :
  (∀ k, cell_ok C k (invite_links db !! k) (f (invite_links db) !! k)) →
  confined C db (set_invite_links f db).
Proof. intros H k. split_and!; try apply cell_ok_refl; apply H. Qed.

Lemma confined_set_invite_joins C f db :
  (∀ k, cell_ok C k (invite_joins db !! k) (f (invite_joins db) !! k)) →
  confined C db (set_invite_joins f db).
Proof. intros H k. split_and!; try apply cell_ok_refl; apply H. Qed.

Lemma confined_upsertUser C u db : confined C db (upsertUser C u db).
Proof.
  unfold upsertUser. destruct u as [u|]; [|apply confined_refl].
  destruct (User.id u =? 0); [apply confined_refl|]. cbv zeta.
  eapply confined_trans.
  - apply confined_set_users. intros k. apply cell_ok_insert.
  - apply confined_set_stats. intros k. apply cell_ok_insert_or_ignore.
Qed.

Lemma confined_handle_in C up db :
  chat_of up = C → confined C db (handle up db).
Proof.
  apply (walk_handle C (confined C)).
  - apply confined_refl.
  - apply confined_trans.
  - apply confined_upsertUser.
  - intros link t j d0. apply (walk_track_join _ (confined _)).
    + apply confined_trans.
    + apply confined_upsertUser.
    + intros f i d. apply confined_set_stats. intros k. apply cell_ok_alter.
    + intros i d. apply confined_set_stats. intros k.
      apply cell_ok_insert_or_ignore.
    + intros j' row d. apply confined_set_invite_joins. intros k.
      apply cell_ok_insert_or_ignore.
  - intros f i d. apply confined_set_stats. intros k. apply cell_ok_alter.
  - intros i t d. apply confined_set_karma_cooldowns. intros k.
    apply cell_ok_insert.
  - intros j d. apply confined_set_invite_joins. intros k. apply cell_ok_alter.
  - intros i l d _. apply confined_set_invite_links. intros k.
    apply cell_ok_insert.
Qed.

Lemma confined_handle up db : confined (chat_of up) db (handle up db).
Proof. by apply confined_handle_in. Qed.

(** X1.  A run in which no update belongs to the chat of key [k] leaves the
    row of [k] in each of the five tables as it was: present or absent, and
    with the same content. *)
Theorem other_chats_untouched ups : ∀ db k,
  Forall (λ up, chat_of up ≠ k.1) ups →
  users (run ups db) !! k = users db !! k
  ∧ stats (run ups db) !! k = stats db !! k
  ∧ karma_cooldowns (run ups db) !! k = karma_cooldowns db !! k
  ∧ invite_links (run ups db) !! k = invite_links db !! k
  ∧ invite_joins (run ups db) !! k = invite_joins db !! k.
Proof.
  unfold run. induction ups as [|up ups IH]; intros db k Hall; simpl; [done|].
  inversion Hall as [|? ? Hup Hrest]; subst.
  destruct (IH (handle up db) k Hrest) as (-> & -> & -> & -> & ->).
  destruct (confined_handle up db k)
    as ([Hu _] & [Hs _] & [Hc _] & [Hl _] & [Hj _]).
  assert (k.1 ≠ chat_of up) as Hk by congruence.
  by rewrite Hu, Hs, Hc, Hl, Hj.
Qed.

Lemma other_chats_untouched_witness :
  stats (run [text_at 100000 5 hi; join_via 7] (set_stats (insert (2, 2) busy_stats) empty_db))
    !! (2, 2) = Some busy_stats.
Proof.
  pose proof (other_chats_untouched [text_at 100000 5 hi; join_via 7]
    (set_stats (insert (2, 2) busy_stats) empty_db) (2, 2)) as H.
  destruct H as (_ & -> & _).
  - repeat constructor; simpl; lia.
  - reflexivity.
Defined.

(** X2.  No handler deletes a row: a key that has a row in one of the five
    tables still has one after any run. *)
Theorem rows_never_deleted ups : ∀ db k,
  (is_Some (users db !! k) → is_Some (users (run ups db) !! k))
  ∧ (is_Some (stats db !! k) → is_Some (stats (run ups db) !! k))
  ∧ (is_Some (karma_cooldowns db !! k)
     → is_Some (karma_cooldowns (run ups db) !! k))
  ∧ (is_Some (invite_links db !! k) → is_Some (invite_links (run ups db) !! k))
  ∧ (is_Some (invite_joins db !! k) → is_Some (invite_joins (run ups db) !! k)).
Proof.
  unfold run. induction ups as [|up ups IH]; intros db k; simpl; [done|].
  destruct (IH (handle up db) k) as (Hu' & Hs' & Hc' & Hl' & Hj').
  destruct (confined_handle up db k)
    as ([_ Hu] & [_ Hs] & [_ Hc] & [_ Hl] & [_ Hj]).
  repeat split; auto.
Qed.

(** ** Invariants of the tables *)

Lemma upsertUser_stats_kept C u db k :
  is_Some (stats db !! k) → is_Some (stats (upsertUser C u db) !! k).
Proof. apply (upsertUser_rel (λ _ _, True)); done. Qed.

Lemma track_join_stats_kept C link t j db k :
  is_Some (stats db !! k) → is_Some (stats (track_join C link t j db) !! k).
Proof. apply (track_join_rel (λ _ _, True)); done. Qed.

Lemma registered_mono db db' :
  users db' = users db →
  (∀ k, is_Some (stats db !! k) → is_Some (stats db' !! k)) →
  registered db → registered db'.
Proof. intros Hu Hs Hr k. rewrite Hu. auto. Qed.

Lemma registered_upsertUser C u db :
  registered db → registered (upsertUser C u db).
Proof.
  intros Hr. unfold upsertUser. destruct u as [u|]; [|done].
  destruct (User.id u =? 0); [done|]. cbv zeta. intros k. simpl.
  rewrite lookup_insert, lookup_insert_or_ignore.
  case_decide; [eauto|]. intros Hk. by apply Hr.
Qed.

Lemma registered_handle up db : registered db → registered (handle up db).
Proof.
  refine (walk_handle (chat_of up) (λ d d', registered d → registered d')
            _ _ _ _ _ _ _ _ up db eq_refl).
  - auto.
  - auto.
  - intros u d. apply registered_upsertUser.
  - intros link t j d.
    apply (walk_track_join _ (λ d d', registered d → registered d')).
    + auto.
    + intros u d'. apply registered_upsertUser.
    + intros f i d'. apply registered_mono; [done|]. intros k. simpl.
      by rewrite lookup_alter_is_Some.
    + intros i d'. apply registered_mono; [done|]. intros k [x Hx]. simpl.
      erewrite insert_or_ignore_kept; eauto.
    + intros j' row d'. by apply registered_mono.
  - intros f i d. apply registered_mono; [done|]. intros k. simpl.
    by rewrite lookup_alter_is_Some.
  - intros i t d. by apply registered_mono.
  - intros j d. by apply registered_mono.
  - intros i l d _. by apply registered_mono.
Qed.

(** X3.  If every user of the users table has a stats row, this is still so
    after any run; in particular it is so in every state reached from the
    empty database.  The leaderboard, which joins the two tables, therefore
    leaves out nobody the bot has seen. *)
Theorem every_user_has_stats ups : ∀ db,
  registered db →
  ∀ k, is_Some (users (run ups db) !! k) → is_Some (stats (run ups db) !! k).
Proof.
  unfold run. induction ups as [|up ups IH]; intros db Hr; simpl; [exact Hr|].
  apply IH. by apply registered_handle.
Qed.

Lemma every_user_has_stats_witness :
  is_Some (stats (run sample_run empty_db) !! (1, 3)).
Proof.
  apply (every_user_has_stats sample_run empty_db).
  - intros k [x Hx]. simpl in Hx. by rewrite lookup_empty in Hx.
  - vm_compute. eauto.
Defined.

Lemma joins_wf_mono db db' :
  invite_joins db' = invite_joins db →
  (∀ k, is_Some (stats db !! k) → is_Some (stats db' !! k)) →
  joins_wf db → joins_wf db'.
Proof.
  intros Hj Hs Hw k r. rewrite Hj. intros Hr.
  destruct (Hw k r Hr) as [Hc Hi]. split; [done|].
  intros i Hi'. destruct (Hi i Hi'). auto.
Qed.

Lemma resolve_inviter_nonzero C link db i :
  resolve_inviter C link db = Some i → i ≠ 0.
Proof.
  unfold resolve_inviter. destruct (truthy_str link); [|done].
  destruct (select_inviter _ _ _) as [i'|]; [|done].
  destruct (Z.eqb_spec i' 0); [done|]. by intros [= <-].
Qed.

Lemma track_join_inviter_row C link t j db i :
  resolve_inviter C link (upsertUser C (Some j) db) = Some i →
  is_Some (stats (track_join C link t j db) !! (C, i)).
Proof.
  unfold resolve_inviter, track_join. intros ->. cbv zeta. simpl.
  rewrite lookup_alter_is_Some. apply insert_or_ignore_is_Some.
Qed.

Lemma track_join_joins_lookup C link t j db k :
  invite_joins (track_join C link t j db) !! k =
    if decide ((C, User.id j) = k)
    then Some (default
                 {| inviter_id := resolve_inviter C link (upsertUser C (Some j) db);
                    joined_at := t; confirmed := 0 |}
                 (invite_joins db !! (C, User.id j)))
    else invite_joins db !! k.
Proof.
  destruct (upsertUser_frame C (Some j) db) as (_ & _ & Hj).
  unfold resolve_inviter, track_join.
  set (inviterId := if truthy_str link then _ else _).
  destruct inviterId; cbn [set_stats set_invite_joins invite_joins];
    by rewrite lookup_insert_or_ignore, Hj.
Qed.

Lemma joins_wf_track_join C link t j db :
  joins_wf db → joins_wf (track_join C link t j db).
Proof.
  intros Hw k r. rewrite track_join_joins_lookup.
  case_decide as Hk.
  - destruct (invite_joins db !! (C, User.id j)) as [old|] eqn:Eold; simpl.
    + intros [= <-]. subst k. destruct (Hw _ _ Eold) as [Hc Hi].
      split; [done|]. intros i Hi'. destruct (Hi i Hi').
      split; [done|]. by apply track_join_stats_kept.
    + intros [= <-]. subst k. split; [by left|]. simpl. intros i Hi.
      split; [by eapply resolve_inviter_nonzero|].
      by apply track_join_inviter_row.
  - intros Hr. destruct (Hw _ _ Hr) as [Hc Hi]. split; [done|].
    intros i Hi'. destruct (Hi i Hi').
    split; [done|]. by apply track_join_stats_kept.
Qed.

Lemma joins_wf_handle up db : joins_wf db → joins_wf (handle up db).
Proof.
  refine (walk_handle (chat_of up) (λ d d', joins_wf d → joins_wf d')
            _ _ _ _ _ _ _ _ up db eq_refl).
  - auto.
  - auto.
  - intros u d. apply joins_wf_mono; [apply upsertUser_frame|].
    intros k. apply upsertUser_stats_kept.
  - intros link t j d. apply joins_wf_track_join.
  - intros f i d. apply joins_wf_mono; [done|]. intros k. simpl.
    by rewrite lookup_alter_is_Some.
  - intros i t d. by apply joins_wf_mono.
  - intros j d Hw k r. simpl. rewrite lookup_alter.
    case_decide as Hk.
    + destruct (invite_joins d !! (chat_of up, j)) as [old|] eqn:Eold; [|done].
      simpl. intros [= <-]. subst k. destruct (Hw _ _ Eold) as [_ Hi].
      split; [by right|]. exact Hi.
    + apply Hw.
  - intros i l d _. by apply joins_wf_mono.
Qed.

(** X4.  If every join row has its flag at 0 or 1 and an inviter, when it
    has one, with a non-zero id and a stats row in the chat of the join,
    this is still so after any run.  So the counter shift of a confirmation
    always finds the inviter's row. *)
Theorem join_rows_stay_well_formed ups : ∀ db,
  joins_wf db →
  ∀ k r, invite_joins (run ups db) !! k = Some r →
    (confirmed r = 0 ∨ confirmed r = 1)
    ∧ ∀ i, inviter_id r = Some i →
           i ≠ 0 ∧ is_Some (stats (run ups db) !! (k.1, i)).
Proof.
  unfold run. induction ups as [|up ups IH]; intros db Hw; simpl; [exact Hw|].
  apply IH. by apply joins_wf_handle.
Qed.

Lemma join_rows_stay_well_formed_witness :
  (confirmed pending_join = 0 ∨ confirmed pending_join = 1)
  ∧ ∀ i, inviter_id pending_join = Some i →
         i ≠ 0
         ∧ is_Some
             (stats
                (run [CmdMyinvite (myinvite_of 1 3) (Some link_L); join_via 0]
                   empty_db) !! ((1, 2).1, i)).
Proof.
  apply (join_rows_stay_well_formed
           [CmdMyinvite (myinvite_of 1 3) (Some link_L); join_via 0] empty_db).
  - intros k r Hr. simpl in Hr. by rewrite lookup_empty in Hr.
  - vm_compute. reflexivity.
Defined.

Lemma counters_grow_refl r : counters_grow r r.
Proof. unfold counters_grow. lia. Qed.

Lemma counters_grow_trans a b c :
  counters_grow a b → counters_grow b c → counters_grow a c.
Proof. unfold counters_grow. lia. Qed.

Lemma run_counters_grow ups db : stats_rel counters_grow db (run ups db).
Proof.
  apply run_rel.
  - apply counters_grow_refl.
  - apply counters_grow_trans.
  - intros r. unfold counters_grow. simpl. lia.
  - intros r. unfold counters_grow. simpl. lia.
  - intros r. unfold counters_grow. simpl. lia.
  - intros r. unfold counters_grow. simpl. lia.
  - intros r. unfold counters_grow. simpl. lia.
Qed.

(** X5.  Along any run the messages, karma, karma_given and
    invites_confirmed of a stats row never decrease: nothing decays, and
    only invites_pending is ever reduced. *)
Theorem counters_never_decrease ups db k r :
  stats db !! k = Some r →
  ∃ r', stats (run ups db) !! k = Some r'
        ∧ messages r ≤ messages r' ∧ karma r ≤ karma r'
        ∧ karma_given r ≤ karma_given r'
        ∧ invites_confirmed r ≤ invites_confirmed r'.
Proof.
  intros Hr. destruct (run_counters_grow ups db k) as [Hg Hsome].
  destruct Hsome as [r' Hr']; [by eauto|].
  rewrite (stats_of_Some _ _ _ Hr), (stats_of_Some _ _ _ Hr') in Hg.
  by exists r'.
Qed.

Lemma counters_never_decrease_witness :
  ∃ r', stats (run [text_at 100000 5 hi] active_db) !! (1, 2) = Some r'
        ∧ messages (stats_of active_db (1, 2)) ≤ messages r'
        ∧ karma (stats_of active_db (1, 2)) ≤ karma r'
        ∧ karma_given (stats_of active_db (1, 2)) ≤ karma_given r'
        ∧ invites_confirmed (stats_of active_db (1, 2)) ≤ invites_confirmed r'.
Proof.
  apply (counters_never_decrease [text_at 100000 5 hi] active_db (1, 2)
           (stats_of active_db (1, 2))).
  vm_compute. reflexivity.
Defined.

(** X6.  In every state reached from the empty database no counter of any
    stats row is negative. *)
Theorem counters_never_negative ups k r :
  stats (run ups empty_db) !! k = Some r →
  0 ≤ messages r ∧ 0 ≤ karma r ∧ 0 ≤ karma_given r
  ∧ 0 ≤ invites_pending r ∧ 0 ≤ invites_confirmed r.
Proof.
  intros Hr.
  destruct (run_counters_grow ups empty_db k) as [Hg _].
  destruct (run_invites_ok ups empty_db k) as [[_ Hp] _].
  assert (stats_of empty_db k = default_stats) as H0.
  { unfold stats_of. simpl. by rewrite lookup_empty. }
  rewrite H0, (stats_of_Some _ _ _ Hr) in Hg, Hp.
  unfold counters_grow in Hg. simpl in Hg, Hp. lia.
Qed.

Lemma counters_never_negative_witness :
  0 ≤ messages (inc_invites_pending default_stats)
  ∧ 0 ≤ karma (inc_invites_pending default_stats)
  ∧ 0 ≤ karma_given (inc_invites_pending default_stats)
  ∧ 0 ≤ invites_pending (inc_invites_pending default_stats)
  ∧ 0 ≤ invites_confirmed (inc_invites_pending default_stats).
Proof.
  apply (counters_never_negative
           [CmdMyinvite (myinvite_of 1 3) (Some link_L); join_via 0] (1, 3)).
  vm_compute. reflexivity.
Defined.

(** ** Karma is the count of grants *)

Lemma grants_to_cons C U g log :
  grants_to C U (g :: log)
    = (if decide (g.1.1 = C ∧ g.2 = U) then 1 else 0) + grants_to C U log.
Proof.
  unfold grants_to. rewrite filter_cons.
  case_decide; simpl length; lia.
Qed.

Lemma grants_by_cons C U g log :
  grants_by C U (g :: log)
    = (if decide (g.1.1 = C ∧ g.1.2 = U) then 1 else 0) + grants_by C U log.
Proof.
  unfold grants_by. rewrite filter_cons.
  case_decide; simpl length; lia.
Qed.

Lemma handle_no_grant up db k :
  grant_of up db = None →
  karma (stats_of (handle up db) k) = karma (stats_of db k)
  ∧ karma_given (stats_of (handle up db) k) = karma_given (stats_of db k).
Proof.
  destruct up as [ctx|ctx|ctx created|now ctx]; simpl; intros Hg.
  - unfold me. cbv zeta.
    pose proof (stats_of_upsertUser (chat_id ctx) (from ctx) db k) as H.
    by destruct (from ctx); cbn [fst]; rewrite H.
  - done.
  - destruct (myinvite_rel karma_same karma_same_refl karma_same_trans
                ctx created db k) as [[-> ->] _]. done.
  - assert (grants now ctx db = false) as Hf.
    { destruct (grants now ctx db) eqn:E; [|done].
      destruct (grants_true_inv _ _ _ E) as (u & t & _ & Eu & Et & _).
      by rewrite Eu, Et in Hg. }
    destruct (on_message_no_grant now ctx db Hf) as [_ Hs].
    destruct (Hs k) as [[-> ->] _]. done.
Qed.

Lemma handle_grant up db C giver target k :
  grant_of up db = Some (C, giver, target) →
  giver ≠ target ∧ giver ≠ 0 ∧ target ≠ 0 ∧ chat_of up = C
  ∧ karma (stats_of (handle up db) k)
    = karma (stats_of db k) + (if decide (k = (C, target)) then 1 else 0)
  ∧ karma_given (stats_of (handle up db) k)
    = karma_given (stats_of db k) + (if decide (k = (C, giver)) then 1 else 0).
Proof.
  destruct up as [ctx|ctx|ctx created|now ctx]; simpl; try done.
  destruct (from ctx) as [u|] eqn:Eu; [|done].
  destruct (reply_to_from (message ctx)) as [t|] eqn:Et; [|done].
  destruct (grants now ctx db) eqn:Eg; [|done]. intros [= <- <- <-].
  destruct (grants_true_inv _ _ _ Eg)
    as (u' & t' & Ej & Eu' & Et' & Hu & _ & Ht & Hne & _).
  rewrite Eu in Eu'. rewrite Et in Et'.
  injection Eu' as <-. injection Et' as <-.
  destruct (on_message_grant now ctx db u t Ej Eu Et Eg) as [_ Hk].
  destruct (Hk k) as [-> ->]. repeat split; congruence.
Qed.

(** X7.  Along any run, the karma of a user grows by the number of grants
    made to them in that chat and their karma_given by the number of grants
    they made, a grant being a run of the message handler that reaches the
    writes of the karma block.  No grant in the log is a self-grant. *)
Theorem karma_counts_grants ups : ∀ db C U,
  karma (stats_of (run ups db) (C, U))
    = karma (stats_of db (C, U)) + grants_to C U (grant_log ups db)
  ∧ karma_given (stats_of (run ups db) (C, U))
    = karma_given (stats_of db (C, U)) + grants_by C U (grant_log ups db)
  ∧ Forall (λ g, g.1.2 ≠ g.2) (grant_log ups db).
Proof.
  unfold run. induction ups as [|up ups IH]; intros db C U; simpl.
  { unfold grants_to, grants_by. simpl. split_and!; [lia|lia|constructor]. }
  destruct (IH (handle up db) C U) as (Hk & Hg & Hall).
  rewrite Hk, Hg. clear Hk Hg.
  destruct (grant_of up db) as [[[c giver] target]|] eqn:Eg.
  - destruct (handle_grant up db c giver target (C, U) Eg)
      as (Hne & _ & _ & _ & -> & ->).
    rewrite grants_to_cons, grants_by_cons. simpl.
    split_and!; [| |by constructor].
    + repeat case_decide; try lia; exfalso;
        first [simplify_eq; tauto | destruct_and!; simplify_eq].
    + repeat case_decide; try lia; exfalso;
        first [simplify_eq; tauto | destruct_and!; simplify_eq].
  - destruct (handle_no_grant up db (C, U) Eg) as [-> ->]. done.
Qed.

(** ** Attributing a join to an inviter *)

Lemma select_inviter_Some (C : Z) (l : jsstring) (m : gmap (Z * Z) jsstring) (i : Z) :
  select_inviter C l m = Some i → m !! (C, i) = Some l.
Proof.
  unfold select_inviter. intros H.
  apply head_Some_elem_of, list_elem_of_omap in H as ([[c i'] l'] & Hin & Hsel).
  apply elem_of_map_to_list in Hin.
  destruct (Z.eqb_spec c C) as [->|]; [|done].
  case_bool_decide; [|done]. simpl in Hsel. by simplify_eq.
Qed.

Lemma select_inviter_None (C : Z) (l : jsstring) (m : gmap (Z * Z) jsstring) :
  select_inviter C l m = None ↔ ∀ i, m !! (C, i) ≠ Some l.
Proof.
  unfold select_inviter. rewrite head_None. split.
  - intros Hnil i Hi.
    assert (i ∈ omap (λ '((c, i), l0),
                        if (c =? C) && bool_decide (l0 = l)
                        then Some i else None) (map_to_list m)) as Hin.
    { apply list_elem_of_omap. exists ((C, i), l). split.
      - by apply elem_of_map_to_list.
      - by rewrite Z.eqb_refl, bool_decide_eq_true_2. }
    rewrite Hnil in Hin. by apply not_elem_of_nil in Hin.
  - intros Hno.
    destruct (omap _ _) as [|i rest] eqn:E; [done|]. exfalso.
    assert (select_inviter C l m = Some i) as Hs.
    { unfold select_inviter. by rewrite E. }
    by apply select_inviter_Some, Hno in Hs.
Qed.

Lemma resolve_inviter_upsertUser C link u db :
  resolve_inviter C link (upsertUser C u db) = resolve_inviter C link db.
Proof.
  unfold resolve_inviter.
  by destruct (upsertUser_frame C u db) as (_ & -> & _).
Qed.

(** X8.  A join is attributed only to an inviter with a non-zero id who
    holds the notified link in the chat of the join; when exactly one user
    holds it there, the join is attributed to that user; without a link,
    with an empty one, or with a link nobody holds in this chat (a link of
    another chat included), the join has no inviter. *)
Theorem join_attribution C link db :
  (∀ i, resolve_inviter C link db = Some i →
        i ≠ 0 ∧ ∃ l, link = Some l ∧ l ≠ [] ∧ invite_links db !! (C, i) = Some l)
  ∧ (∀ i l, link = Some l → l ≠ [] → i ≠ 0 →
            invite_links db !! (C, i) = Some l →
            (∀ i', invite_links db !! (C, i') = Some l → i' = i) →
            resolve_inviter C link db = Some i)
  ∧ (link = None ∨ link = Some []
     ∨ (∀ i, invite_links db !! (C, i) ≠ link) →
     resolve_inviter C link db = None).
Proof.
  split_and!.
  - intros i Hres. split; [by eapply resolve_inviter_nonzero|].
    revert Hres. unfold resolve_inviter.
    destruct link as [[|c l]|]; try done. cbn [truthy_str or_empty].
    destruct (select_inviter _ _ _) as [i'|] eqn:Es; [|done].
    destruct (i' =? 0); [done|]. intros [= <-].
    exists (c :: l). split_and!; [done|done|]. by apply select_inviter_Some.
  - intros i l -> Hl Hi Hrow Huniq. unfold resolve_inviter.
    destruct l as [|c l]; [done|]. cbn [truthy_str or_empty].
    destruct (select_inviter C (c :: l) (invite_links db)) as [i'|] eqn:Es.
    + apply select_inviter_Some, Huniq in Es. subst i'.
      by destruct (Z.eqb_spec i 0).
    + rewrite select_inviter_None in Es. by apply Es in Hrow.
  - intros [->|[->|Hno]]; [done|done|]. unfold resolve_inviter.
    destruct link as [[|c l]|]; try done. cbn [truthy_str or_empty].
    destruct (select_inviter _ _ _) as [i'|] eqn:Es; [|done].
    apply select_inviter_Some in Es. by apply Hno in Es.
Qed.

Lemma track_join_stats_of C link t j db k :
  stats_of (track_join C link t j db) k =
    match resolve_inviter C link db with
    | Some i => if decide ((C, i) = k) then inc_invites_pending (stats_of db k)
                else stats_of db k
    | None => stats_of db k
    end.
Proof.
  rewrite <- (resolve_inviter_upsertUser C link (Some j) db).
  unfold resolve_inviter, track_join.
  set (inviterId := if truthy_str link then _ else _).
  destruct inviterId as [i|]; cbv zeta.
  - rewrite stats_of_alter. case_decide as Hk.
    + subst k. cbn [set_stats stats].
      rewrite lookup_insert_or_ignore, decide_True by done. f_equal.
      apply (stats_of_upsertUser C (Some j) db (C, i)).
    + rewrite stats_of_ensure.
      apply (stats_of_upsertUser C (Some j) db k).
  - apply (stats_of_upsertUser C (Some j) db k).
Qed.

(** X9.  The first notification of a join: for a user with no join row in
    the chat, the loop body writes the row (the resolved inviter, the clock
    value it read, flag 0), leaves every other join row alone, and adds one
    to the invites_pending of the inviter, if there is one, and to nothing
    else: every other counter of every row keeps its value. *)
Theorem first_join_recorded C link t j db :
  invite_joins db !! (C, User.id j) = None →
  let inviter := resolve_inviter C link db in
  let db' := track_join C link t j db in
  invite_joins db' !! (C, User.id j)
    = Some {| inviter_id := inviter; joined_at := t; confirmed := 0 |}
  ∧ (∀ k, k ≠ (C, User.id j) → invite_joins db' !! k = invite_joins db !! k)
  ∧ ∀ k, stats_of db' k =
           if decide (inviter = Some k.2 ∧ k.1 = C)
           then inc_invites_pending (stats_of db k) else stats_of db k.
Proof.
  intros Hnew inviter db'. split_and!.
  - unfold db'. rewrite track_join_joins_lookup, decide_True by done.
    by rewrite resolve_inviter_upsertUser, Hnew.
  - intros k Hk. unfold db'.
    rewrite track_join_joins_lookup, decide_False by done. done.
  - intros k. unfold db'. rewrite track_join_stats_of. fold inviter.
    destruct inviter as [i|].
    + destruct k as [c u]. simpl.
      repeat case_decide; try done; exfalso;
        first [simplify_eq; tauto | destruct_and!; simplify_eq].
    + by rewrite decide_False by (by intros [? _]).
Qed.

Lemma first_join_recorded_witness :
  invite_joins
    (track_join 1 (Some link_L) 7 (User.mk 9 None None) joined_db) !! (1, 9)
  = Some {| inviter_id := resolve_inviter 1 (Some link_L) joined_db;
            joined_at := 7; confirmed := 0 |}.
Proof.
  apply (first_join_recorded 1 (Some link_L) 7 (User.mk 9 None None) joined_db).
  vm_compute. reflexivity.
Defined.

(** ** What the sweep gets done *)

Lemma select_candidates_all (C : Z) (m : gmap (Z * Z) JoinRow) :
  (length (all_candidates C m) ≤ 5)%nat →
  select_candidates C m = all_candidates C m.
Proof. intros Hlen. unfold select_candidates. by apply take_ge. Qed.

Lemma all_candidates_elem (C j i : Z) (m : gmap (Z * Z) JoinRow) (r : JoinRow) :
  m !! (C, j) = Some r → confirmed r = 0 → inviter_id r = Some i →
  {| c_joined_user_id := j; c_inviter_id := i; c_joined_at := joined_at r |}
    ∈ all_candidates C m.
Proof.
  intros Hr Hc Hi. unfold all_candidates. apply list_elem_of_omap.
  exists ((C, j), r). split; [by apply elem_of_map_to_list|].
  by rewrite Z.eqb_refl, Hc, Hi.
Qed.

Lemma confirm_candidate_joins C t c db k r :
  invite_joins db !! k = Some r →
  invite_joins (confirm_candidate C t c db) !! k = Some r
  ∨ invite_joins (confirm_candidate C t c db) !! k = Some (set_confirmed r).
Proof.
  intros Hr.
  destruct (confirm_loop_joins C (λ _, t) [c] 0 db k r Hr) as [?|[? _]];
    [by left | by right].
Qed.

Lemma confirm_candidate_confirms C t c db r :
  INVITE_CONFIRM_AFTER_SECONDS ≤ t - c_joined_at c →
  INVITE_CONFIRM_MIN_MESSAGES ≤ messages (stats_of db (C, c_joined_user_id c)) →
  invite_joins db !! (C, c_joined_user_id c) = Some r →
  is_Some (stats db !! (C, c_inviter_id c)) →
  invite_joins (confirm_candidate C t c db) !! (C, c_joined_user_id c)
    = Some (set_confirmed r)
  ∧ invites_confirmed (stats_of (confirm_candidate C t c db) (C, c_inviter_id c))
    = invites_confirmed (stats_of db (C, c_inviter_id c)) + 1.
Proof.
  intros Ht Hm Hr [s Hs]. unfold confirm_candidate.
  destruct (Z.ltb_spec (t - c_joined_at c) INVITE_CONFIRM_AFTER_SECONDS);
    [lia|]. cbv zeta. rewrite msgCount_stats_of.
  destruct (Z.ltb_spec (messages (stats_of db (C, c_joined_user_id c)))
              INVITE_CONFIRM_MIN_MESSAGES); [lia|].
  split.
  - cbn [set_stats set_invite_joins invite_joins].
    by rewrite lookup_alter_eq, Hr.
  - rewrite stats_of_alter, decide_True by done.
    cbn [set_invite_joins stats]. rewrite Hs, (stats_of_Some _ _ _ Hs). done.
Qed.

Lemma confirm_loop_confirms C now cs : ∀ n db c r,
  c ∈ cs →
  (∀ i, INVITE_CONFIRM_AFTER_SECONDS ≤ now i - c_joined_at c) →
  INVITE_CONFIRM_MIN_MESSAGES ≤ messages (stats_of db (C, c_joined_user_id c)) →
  invite_joins db !! (C, c_joined_user_id c) = Some r →
  is_Some (stats db !! (C, c_inviter_id c)) →
  invite_joins (confirm_loop C now n cs db) !! (C, c_joined_user_id c)
    = Some (set_confirmed r)
  ∧ invites_confirmed (stats_of db (C, c_inviter_id c)) + 1
    ≤ invites_confirmed (stats_of (confirm_loop C now n cs db) (C, c_inviter_id c)).
Proof.
  induction cs as [|c0 rest IH]; intros n db c r Hin Ht Hm Hr Hs.
  { by apply not_elem_of_nil in Hin. }
  simpl. apply elem_of_cons in Hin as [<-|Hin].
  - destruct (confirm_candidate_confirms C (now n) c db r (Ht n) Hm Hr Hs)
      as [Hj Hc].
    set (db1 := confirm_candidate C (now n) c db) in *.
    split.
    + destruct (confirm_loop_joins C now rest (S n) db1 _ _ Hj) as [?|[? _]];
        done.
    + rewrite <- Hc.
      apply (confirm_loop_rel counters_grow counters_grow_refl
               counters_grow_trans); intros s; unfold counters_grow; simpl; lia.
  - set (db1 := confirm_candidate C (now n) c0 db).
    assert (stats_rel counters_grow db db1) as Hg.
    { apply confirm_candidate_rel;
        [apply counters_grow_refl | apply counters_grow_trans |].
      intros s. unfold counters_grow. simpl. lia. }
    assert (messages (stats_of db1 (C, c_joined_user_id c))
            = messages (stats_of db (C, c_joined_user_id c))) as Hm1.
    { symmetry. apply (confirm_candidate_rel messages_same); eauto. }
    assert (∃ r1, invite_joins db1 !! (C, c_joined_user_id c) = Some r1
                  ∧ set_confirmed r1 = set_confirmed r) as (r1 & Hr1 & Heq).
    { destruct (confirm_candidate_joins C (now n) c0 db _ _ Hr);
        [by exists r | by exists (set_confirmed r)]. }
    destruct (IH (S n) db1 c r1 Hin Ht) as [Hj Hc].
    + by rewrite Hm1.
    + done.
    + by apply Hg.
    + rewrite Hj, Heq. split; [done|].
      destruct (Hg (C, c_inviter_id c)) as [(_ & _ & _ & Hic) _]. lia.
Qed.

(** X10.  A message that does not enter the karma block confirms a pending
    join of its chat in the same run, provided the chat has at most five
    pending attributed joins, every clock read of the run is at least 24h
    after the join, and the joined user has three counted messages, the
    present one included; the inviter's invites_confirmed then grows by at
    least one. *)
Theorem eligible_join_confirmed now ctx db u j i r :
  new_chat_members (message ctx) = [] →
  from ctx = Some u → User.id u ≠ 0 →
  karma_trigger (message ctx) = false →
  invite_joins db !! (chat_id ctx, j) = Some r →
  confirmed r = 0 → inviter_id r = Some i →
  is_Some (stats db !! (chat_id ctx, i)) →
  (length (all_candidates (chat_id ctx) (invite_joins db)) ≤ 5)%nat →
  (∀ n, INVITE_CONFIRM_AFTER_SECONDS ≤ now n - joined_at r) →
  INVITE_CONFIRM_MIN_MESSAGES
    ≤ messages (stats_of db (chat_id ctx, j))
      + (if counted (chat_id ctx) j (Msg now ctx) then 1 else 0) →
  invite_joins (on_message now ctx db) !! (chat_id ctx, j)
    = Some (set_confirmed r)
  ∧ invites_confirmed (stats_of db (chat_id ctx, i)) + 1
    ≤ invites_confirmed (stats_of (on_message now ctx db) (chat_id ctx, i)).
Proof.
  intros Ej Eu Hu Htr Hr Hc Hi Hs Hlen Ht Hm.
  set (C := chat_id ctx) in *.
  set (db2 := count_message C u (message ctx) (upsertUser C (Some u) db)).
  assert (on_message now ctx db = confirmation_sweep C now 0 db2) as ->.
  { unfold on_message. cbv zeta. rewrite Ej, Eu.
    destruct (Z.eqb_spec (User.id u) 0); [done|].
    unfold karma_block. by rewrite Htr. }
  assert (invite_joins db2 = invite_joins db) as Hj2.
  { unfold db2.
    destruct (count_message_frame C u (message ctx)
                (upsertUser C (Some u) db)) as (_ & _ & _ & ->).
    apply upsertUser_frame. }
  assert (stats_rel counters_grow db db2) as Hg.
  { eapply stats_rel_trans; [apply counters_grow_trans| |].
    - apply upsertUser_rel; [apply counters_grow_refl|apply counters_grow_trans].
    - apply count_message_rel; [apply counters_grow_refl|].
      intros s. unfold counters_grow. simpl. lia. }
  assert (messages (stats_of db2 (C, j))
          = messages (stats_of db (C, j))
            + (if counted C j (Msg now ctx) then 1 else 0)) as Hm2.
  { unfold db2.
    rewrite stats_of_count_message by by apply upsertUser_stats_is_Some.
    rewrite stats_of_upsertUser. unfold counted. rewrite Ej, Eu.
    destruct (Z.eqb_spec (User.id u) 0); [done|]. fold C.
    rewrite Z.eqb_refl. simpl.
    destruct (counts_message (message ctx)); simpl; [|lia].
    case_bool_decide as Hk.
    - injection Hk as ->. rewrite Z.eqb_refl. simpl. lia.
    - destruct (Z.eqb_spec (User.id u) j); [congruence|lia]. }
  unfold confirmation_sweep. rewrite Hj2.
  rewrite select_candidates_all by done.
  pose proof (all_candidates_elem C j i (invite_joins db) r Hr Hc Hi) as Hin.
  destruct (confirm_loop_confirms C now (all_candidates C (invite_joins db))
              0 db2 _ r Hin) as [Hconf Hcount]; simpl.
  - exact Ht.
  - rewrite Hm2. exact Hm.
  - by rewrite Hj2.
  - by apply Hg.
  - split; [exact Hconf|].
    destruct (Hg (C, i)) as [(_ & _ & _ & Hic) _]. simpl in Hcount. lia.
Qed.

Lemma eligible_join_confirmed_witness :
  invite_joins
    (on_message (λ _, 100000)
       {| chat_id := 1; from := Some (User.mk 5 None None);
          message := {| text := Some hi; reply_to_from := None;
                        new_chat_members := []; invite_link := None |} |}
       active_db) !! (1, 2)
  = Some (set_confirmed pending_join).
Proof.
  apply (eligible_join_confirmed (λ _, 100000)
           {| chat_id := 1; from := Some (User.mk 5 None None);
              message := {| text := Some hi; reply_to_from := None;
                            new_chat_members := []; invite_link := None |} |}
           active_db (User.mk 5 None None) 2 3 pending_join).
  - reflexivity.
  - reflexivity.
  - simpl. lia.
  - reflexivity.
  - vm_compute. reflexivity.
  - reflexivity.
  - reflexivity.
  - vm_compute. eauto.
  - vm_compute. lia.
  - intros n. vm_compute. discriminate.
  - vm_compute. discriminate.
Defined.

(** X11.  A run of the message handler changes at most five of the join
    rows it finds, all of them pending attributed rows of the chat of the
    update, however many joins are waiting. *)
Theorem at_most_five_confirmed now ctx db :
  ∃ keys : list (Z * Z),
    (length keys ≤ 5)%nat
    ∧ ∀ k r, invite_joins db !! k = Some r →
        invite_joins (on_message now ctx db) !! k ≠ Some r →
        k ∈ keys ∧ k.1 = chat_id ctx ∧ confirmed r = 0 ∧ is_Some (inviter_id r).
Proof.
  set (C := chat_id ctx).
  exists ((λ c, (C, c_joined_user_id c)) <$> select_candidates C (invite_joins db)).
  split; [rewrite length_fmap; apply select_candidates_length|].
  intros k r Hr Hne. revert Hne. unfold on_message. cbv zeta. fold C.
  destruct (new_chat_members (message ctx)) as [|m ms] eqn:Ej.
  2:{ intros Hne. exfalso. apply Hne. by apply track_joins_joins. }
  destruct (from ctx) as [u|]; [|done].
  destruct (User.id u =? 0); [done|].
  set (db2 := count_message C u (message ctx) (upsertUser C (Some u) db)).
  assert (invite_joins db2 = invite_joins db) as H2.
  { unfold db2.
    destruct (count_message_frame C u (message ctx)
                (upsertUser C (Some u) db)) as (_ & _ & _ & ->).
    apply upsertUser_frame. }
  destruct (karma_block_frame C u (message ctx) now db2) as [_ H3].
  destruct (karma_block _ _ _ _ _) as [db3|n db3]; simpl in H3.
  - intros Hne. exfalso. apply Hne. by rewrite H3, H2.
  - unfold confirmation_sweep. rewrite H3, H2. intros Hne.
    assert (invite_joins db3 !! k = Some r) as Hr3 by by rewrite H3, H2.
    destruct (confirm_loop_joins C now (select_candidates C (invite_joins db))
                n db3 k r Hr3) as [?|(_ & c & idx & Hc & -> & _)]; [done|].
    apply list_elem_of_lookup_2 in Hc.
    pose proof (select_candidates_elem C _ c Hc) as (r' & Hr' & Hz & Hi & _).
    rewrite Hr in Hr'. injection Hr' as <-.
    split_and!; [|done|done|by rewrite Hi].
    apply list_elem_of_fmap. by exists c.
Qed.

(** ** The leaderboard *)

#[local] Instance order_by_total : Total order_by.
Proof. intros a b. unfold order_by. lia. Qed.

#[local] Instance order_by_trans : Transitive order_by.
Proof. intros a b c. unfold order_by. lia. Qed.

Lemma joined_rows_elem C db row :
  row ∈ joined_rows C db ↔
  ∃ u s, users db !! (C, l_user_id row) = Some u
         ∧ stats db !! (C, l_user_id row) = Some s
         ∧ row = {| l_user_id := l_user_id row; l_first_name := first_name u;
                    l_username := username u; l_karma := karma s;
                    l_messages := messages s;
                    l_invites_confirmed := invites_confirmed s |}.
Proof.
  unfold joined_rows. rewrite list_elem_of_omap. split.
  - intros ([[c i] s] & Hin & Hsel). apply elem_of_map_to_list in Hin.
    destruct (Z.eqb_spec c C) as [->|]; [|done].
    destruct (users db !! (C, i)) as [u|] eqn:Eu; [|done].
    injection Hsel as <-. simpl. by exists u, s.
  - intros (u & s & Hu & Hs & Hrow). exists ((C, l_user_id row), s).
    split; [by apply elem_of_map_to_list|].
    by rewrite Z.eqb_refl, Hu, Hrow.
Qed.

Lemma top_elem C db row : row ∈ top C db → row ∈ joined_rows C db.
Proof.
  unfold top. intros Hin. apply (subseteq_take 10) in Hin.
  by rewrite merge_sort_Permutation in Hin.
Qed.

(** X12.  The rows of the leaderboard: at most ten; each is a user of the
    chat with a users row and a stats row, shown with the name fields and
    counters of those rows; they come by karma, then invites_confirmed,
    then messages, highest first; and a user of the chat with both rows who
    is left out is preceded in that order by each of the ten shown. *)
Theorem leaderboard_is_top_ten C db :
  (length (top C db) ≤ 10)%nat
  ∧ StronglySorted order_by (top C db)
  ∧ (∀ row, row ∈ top C db →
       ∃ u s, users db !! (C, l_user_id row) = Some u
              ∧ stats db !! (C, l_user_id row) = Some s
              ∧ l_first_name row = first_name u ∧ l_username row = username u
              ∧ l_karma row = karma s ∧ l_messages row = messages s
              ∧ l_invites_confirmed row = invites_confirmed s)
  ∧ (∀ i u s, users db !! (C, i) = Some u → stats db !! (C, i) = Some s →
       let row := {| l_user_id := i; l_first_name := first_name u;
                     l_username := username u; l_karma := karma s;
                     l_messages := messages s;
                     l_invites_confirmed := invites_confirmed s |} in
       row ∈ top C db
       ∨ (length (top C db) = 10%nat ∧ ∀ r, r ∈ top C db → order_by r row)).
Proof.
  pose proof (StronglySorted_merge_sort order_by (joined_rows C db)) as Hsorted.
  rewrite <- (take_drop 10 (merge_sort order_by (joined_rows C db))) in Hsorted.
  split_and!.
  - unfold top. rewrite length_take. lia.
  - by apply StronglySorted_app_1_l in Hsorted.
  - intros row Hin. apply top_elem, joined_rows_elem in Hin
      as (u & s & Hu & Hs & ->). simpl in *. by exists u, s.
  - intros i u s Hu Hs row.
    assert (row ∈ merge_sort order_by (joined_rows C db)) as Hin.
    { rewrite merge_sort_Permutation. apply joined_rows_elem.
      by exists u, s. }
    rewrite <- (take_drop 10 (merge_sort order_by (joined_rows C db))) in Hin.
    apply elem_of_app in Hin as [Hin|Hin]; [by left|right]. split.
    + unfold top. rewrite length_take.
      destruct (decide (length (merge_sort order_by (joined_rows C db)) ≤ 10)%nat)
        as [Hle|Hgt]; [|lia].
      rewrite drop_ge in Hin by done. by apply not_elem_of_nil in Hin.
    + intros r Hr. by eapply StronglySorted_app_1_elem_of.
Qed.

(** X13.  [/leaderboard] answers "No FamPoints yet." exactly when no user
    of the chat has both a users row and a stats row. *)
Theorem leaderboard_empty_reply ctx db :
  leaderboard_reply ctx db = no_points_text ↔
  ∀ i, users db !! (chat_id ctx, i) = None ∨ stats db !! (chat_id ctx, i) = None.
Proof.
  assert (top (chat_id ctx) db = [] ↔ joined_rows (chat_id ctx) db = []) as Htop.
  { unfold top. split.
    - intros Ht. apply Permutation_nil_r.
      rewrite <- (merge_sort_Permutation order_by).
      destruct (merge_sort order_by (joined_rows (chat_id ctx) db)); done.
    - intros ->. done. }
  assert (joined_rows (chat_id ctx) db = [] ↔
          ∀ i, users db !! (chat_id ctx, i) = None
               ∨ stats db !! (chat_id ctx, i) = None) as Hrows.
  { split.
    - intros Hnil i.
      destruct (users db !! (chat_id ctx, i)) as [u|] eqn:Eu; [|by left].
      destruct (stats db !! (chat_id ctx, i)) as [s|] eqn:Es; [|by right].
      exfalso.
      assert ({| l_user_id := i; l_first_name := first_name u;
                 l_username := username u; l_karma := karma s;
                 l_messages := messages s;
                 l_invites_confirmed := invites_confirmed s |}
              ∈ joined_rows (chat_id ctx) db) as Hin.
      { apply joined_rows_elem. by exists u, s. }
      rewrite Hnil in Hin. by apply not_elem_of_nil in Hin.
    - intros Hno. destruct (joined_rows (chat_id ctx) db) as [|row rest] eqn:E;
        [done|]. exfalso.
      assert (row ∈ joined_rows (chat_id ctx) db) as Hin
        by (rewrite E; apply elem_of_cons; by left).
      apply joined_rows_elem in Hin as (u & s & Hu & Hs & _).
      destruct (Hno (l_user_id row)); congruence. }
  rewrite <- Hrows, <- Htop. unfold leaderboard_reply.
  destruct (top (chat_id ctx) db) as [|row rest]; [done|].
  split; [|done]. intros H. discriminate H.
Qed.

(** ** Display names *)

Lemma uint_units_nil d : uint_units d = [] → d = Decimal.Nil.
Proof. by destruct d. Qed.

Lemma uint_units_inj d1 : ∀ d2, uint_units d1 = uint_units d2 → d1 = d2.
Proof.
  induction d1 as [|d1 IH|d1 IH|d1 IH|d1 IH|d1 IH|d1 IH|d1 IH|d1 IH|d1 IH|d1 IH];
    intros [|d2|d2|d2|d2|d2|d2|d2|d2|d2|d2]; simpl; intros H;
    try discriminate H; try done; f_equal; apply IH; by injection H.
Qed.

Lemma uint_units_digit d : Forall (λ c, (0x30 ≤ c ≤ 0x39)%N) (uint_units d).
Proof. induction d; simpl; constructor; try done; lia. Qed.

Lemma String_of_Z_nonempty n : String_of_Z n ≠ [].
Proof.
  unfold String_of_Z, Z.to_int. destruct n as [|p|p]; [done| |done].
  intros H. apply uint_units_nil in H. by apply Unsigned.to_uint_nonnil in H.
Qed.

Lemma String_of_Z_inj n1 n2 : String_of_Z n1 = String_of_Z n2 → n1 = n2.
Proof.
  intros H.
  rewrite <- (DecimalZ.of_to n1), <- (DecimalZ.of_to n2). f_equal.
  revert H. unfold String_of_Z.
  destruct (Z.to_int n1) as [d1|d1], (Z.to_int n2) as [d2|d2]; intros H.
  - f_equal. by apply uint_units_inj.
  - exfalso. pose proof (uint_units_digit d1) as Hd. rewrite H in Hd.
    apply Forall_cons in Hd as [Hd _]. lia.
  - exfalso. pose proof (uint_units_digit d2) as Hd. rewrite <- H in Hd.
    apply Forall_cons in Hd as [Hd _]. lia.
  - f_equal. injection H as H. by apply uint_units_inj.
Qed.

(** X14.  [displayName] never returns the empty string: it is the user
    name after an at sign when there is a non-empty user name, else the
    first name when that is not empty, else the decimal user id; and two
    rows with neither name are displayed alike only if they have the same
    user id. *)
Theorem displayName_never_empty row :
  displayName row ≠ []
  ∧ (∀ s, l_username row = Some s → s ≠ [] → displayName row = at_sign :: s)
  ∧ (∀ row',
       truthy_str (l_username row) = false →
       truthy_str (l_first_name row) = false →
       truthy_str (l_username row') = false →
       truthy_str (l_first_name row') = false →
       displayName row = displayName row' → l_user_id row = l_user_id row').
Proof.
  split_and!.
  - unfold displayName.
    destruct (l_username row) as [[|c s]|]; simpl; try done;
      destruct (l_first_name row) as [[|c' s']|]; simpl; try done;
      apply String_of_Z_nonempty.
  - intros s Hs Hne. unfold displayName. rewrite Hs.
    by destruct s.
  - intros row' H1 H2 H3 H4. unfold displayName.
    rewrite H1, H2, H3, H4. apply String_of_Z_inj.
Qed.

(** ** Commands and identity *)

(** X15.  [/me] shows its sender the counters the stats table held for them
    before the command, zeros if there was no row, and changes no counter
    of anyone; the cooldown, link and join tables are left as they are. *)
Theorem me_reports_counters ctx db u :
  from ctx = Some u →
  snd (me ctx db) = Some (stats_of db (chat_id ctx, User.id u))
  ∧ (∀ k, stats_of (fst (me ctx db)) k = stats_of db k)
  ∧ karma_cooldowns (fst (me ctx db)) = karma_cooldowns db
  ∧ invite_links (fst (me ctx db)) = invite_links db
  ∧ invite_joins (fst (me ctx db)) = invite_joins db.
Proof.
  intros Eu. destruct (me_frame ctx db) as (Hc & Hl & Hj).
  split_and!; try done.
  - unfold me. cbv zeta. rewrite Eu. cbn [snd]. f_equal.
    apply stats_of_upsertUser.
  - intros k. unfold me. cbv zeta. rewrite Eu. cbn [fst].
    apply stats_of_upsertUser.
Qed.

Lemma me_reports_counters_witness :
  snd (me (myinvite_of 1 2) active_db) = Some (stats_of active_db (1, 2)).
Proof.
  apply (me_reports_counters (myinvite_of 1 2) active_db (User.mk 2 None None)).
  reflexivity.
Defined.

(** X16.  Seeing a user again overwrites what was seen before: two
    [upsertUser] for the same id in a chat leave the database the second
    one alone would leave, so the stored names are the last ones seen and
    seeing the same user twice is seeing them once. *)
Theorem upsertUser_last_write_wins C (u1 u2 : User.t) db :
  User.id u1 = User.id u2 →
  upsertUser C (Some u2) (upsertUser C (Some u1) db)
    = upsertUser C (Some u2) db.
Proof.
  intros Hid. unfold upsertUser. rewrite Hid.
  destruct (User.id u2 =? 0) eqn:E; rewrite ?E; [done|].
  destruct db; unfold set_stats, set_users; simpl. f_equal.
  - apply insert_insert_eq.
  - apply insert_or_ignore_present, insert_or_ignore_is_Some.
Qed.

Lemma upsertUser_last_write_wins_witness :
  upsertUser 1 (Some (User.mk 2 (Some hi) None))
    (upsertUser 1 (Some (User.mk 2 None (Some hi))) active_db)
  = upsertUser 1 (Some (User.mk 2 (Some hi) None)) active_db.
Proof.
  apply (upsertUser_last_write_wins 1 (User.mk 2 None (Some hi))
           (User.mk 2 (Some hi) None) active_db).
  reflexivity.
Defined.

Lemma join_attribution_unique C l db i :
  l ≠ [] → i ≠ 0 →
  invite_links db !! (C, i) = Some l →
  (∀ i', invite_links db !! (C, i') = Some l → i' = i) →
  resolve_inviter C (Some l) db = Some i.
Proof.
  intros Hl Hi Hrow Huniq. unfold resolve_inviter.
  destruct l as [|c l]; [done|]. cbn [truthy_str or_empty].
  destruct (select_inviter C (c :: l) (invite_links db)) as [i'|] eqn:Es.
  - apply select_inviter_Some, Huniq in Es. subst i'.
    by destruct (Z.eqb_spec i 0).
  - rewrite select_inviter_None in Es. by apply Es in Hrow.
Qed.

(** X17.  From [/myinvite] to a join: when the command has created a link
    for a user with a non-zero id, and nobody in the chat held that link
    before, a join notified with the link is attributed to that user. *)
Theorem created_link_resolves ctx created db u link :
  from ctx = Some u → User.id u ≠ 0 →
  snd (myinvite ctx created db) = Replied link true →
  link ≠ [] →
  (∀ i, invite_links db !! (chat_id ctx, i) ≠ Some link) →
  resolve_inviter (chat_id ctx) (Some link) (fst (myinvite ctx created db))
    = Some (User.id u).
Proof.
  intros Eu Hu Hreply Hne Hfresh.
  destruct (upsertUser_frame (chat_id ctx) (Some u) db) as (_ & Hl & _).
  revert Hreply. unfold myinvite. cbv zeta. rewrite Eu.
  destruct (truthy_str _); [done|].
  destruct created as [new|]; [|done].
  unfold insert_strict.
  destruct (invite_links (upsertUser (chat_id ctx) (Some u) db)
              !! (chat_id ctx, User.id u)) eqn:E; [done|].
  cbn [snd fst]. intros [= ->].
  apply (join_attribution_unique (chat_id ctx) link); try done.
  - cbn [set_invite_links invite_links]. apply lookup_insert_eq.
  - intros i'. cbn [set_invite_links invite_links]. rewrite lookup_insert.
    case_decide as Hk; [by injection Hk|].
    rewrite Hl. intros Hi'. by apply Hfresh in Hi'.
Qed.

Lemma created_link_resolves_witness :
  resolve_inviter 1 (Some link_L)
    (fst (myinvite (myinvite_of 1 3) (Some link_L) empty_db)) = Some 3.
Proof.
  apply (created_link_resolves (myinvite_of 1 3) (Some link_L) empty_db
           (User.mk 3 None None) link_L).
  - reflexivity.
  - simpl. lia.
  - reflexivity.
  - discriminate.
  - intros i. simpl. rewrite lookup_empty. discriminate.
Defined.

(** ** What a message does besides *)

(** X18.  A reply ["+"] is a message like any other for the message
    counter: whether or not it grants karma, it adds one to the messages of
    its sender, and so counts towards the three messages a joined user
    needs. *)
Theorem plus_counts_as_message now ctx db u s :
  new_chat_members (message ctx) = [] →
  from ctx = Some u → User.id u ≠ 0 →
  text (message ctx) = Some s → trim s = plus_sign →
  messages (stats_of (on_message now ctx db) (chat_id ctx, User.id u))
    = messages (stats_of db (chat_id ctx, User.id u)) + 1.
Proof.
  intros Ej Eu Hu Hs Hp. rewrite on_message_messages.
  unfold counted. rewrite Ej, Eu, (counts_message_plus _ _ Hs Hp), !Z.eqb_refl.
  by destruct (Z.eqb_spec (User.id u) 0).
Qed.

Lemma plus_counts_as_message_witness :
  messages (stats_of (on_message (λ _, 1000) self_reply empty_db) (1, 2))
    = messages (stats_of empty_db (1, 2)) + 1.
Proof.
  apply (plus_counts_as_message (λ _, 1000) self_reply empty_db
           (User.mk 2 None None) plus_sign); try reflexivity.
  simpl. lia.
Defined.

(** X19.  An update with new members is handled as a join and as nothing
    else, whatever text or reply it carries: no message is counted, no
    karma granted, no cooldown written, no join confirmed; the join rows
    that exist and the links are left as they are, and of the counters only
    invites_pending can move. *)
Theorem join_update_only_joins now ctx db :
  new_chat_members (message ctx) ≠ [] →
  karma_cooldowns (on_message now ctx db) = karma_cooldowns db
  ∧ invite_links (on_message now ctx db) = invite_links db
  ∧ (∀ k r, invite_joins db !! k = Some r →
            invite_joins (on_message now ctx db) !! k = Some r)
  ∧ ∀ k, messages (stats_of (on_message now ctx db) k) = messages (stats_of db k)
         ∧ karma (stats_of (on_message now ctx db) k) = karma (stats_of db k)
         ∧ karma_given (stats_of (on_message now ctx db) k)
           = karma_given (stats_of db k)
         ∧ invites_confirmed (stats_of (on_message now ctx db) k)
           = invites_confirmed (stats_of db k).
Proof.
  intros Hjoin. unfold on_message. cbv zeta.
  destruct (new_chat_members (message ctx)) as [|m ms] eqn:Ej; [done|].
  destruct (track_joins_frame (chat_id ctx) (invite_link (message ctx)) now
              (m :: ms) 0 db) as [Hc Hl].
  split_and!; [done|done| |].
  - intros k r. apply track_joins_joins.
  - intros k.
    assert (stats_rel join_quiet db
              (track_joins (chat_id ctx) (invite_link (message ctx)) now 0
                 (m :: ms) db)) as Hq.
    { apply track_joins_rel.
      - intros r. by unfold join_quiet.
      - intros a b c. unfold join_quiet. intros (? & ? & ? & ?) (? & ? & ? & ?).
        split_and!; congruence.
      - intros r. by unfold join_quiet. }
    destruct (Hq k) as [(? & ? & ? & ?) _]. done.
Qed.

Lemma join_update_only_joins_witness :
  karma_cooldowns (handle (join_via 500) joined_db) = karma_cooldowns joined_db.
Proof.
  apply (join_update_only_joins (λ _, 500)
           {| chat_id := 1; from := Some (User.mk 2 None None);
              message := {| text := None; reply_to_from := None;
                            new_chat_members := [User.mk 2 None None];
                            invite_link := Some link_L |} |} joined_db).
  discriminate.
Defined.


